(** * webscraper: the URL-normalising page scraper and the NewsAPI prompt tool

    A shallow embedding of [src/scrape_the_web.py] and [src/newsasker.py].

    Python strings are sequences of Unicode code points, so a string is a
    [list N] here; [len], slicing and concatenation are [length], [take]/[drop]
    and [++].  Exceptions are an explicit [Raise] result.  The parts of the
    Python runtime the two scripts call ([str] methods, [urllib.parse],
    [ipaddress], [int]) are embedded from CPython 3.11 (Unicode 14.0.0). *)

From Stdlib Require Import NArith ZArith List String Ascii Lia Bool DecimalString.
From stdpp Require Import base list option gmap strings.

Set Default Proof Using "Type".
Local Open Scope N_scope.
Local Open Scope list_scope.

(** ** Python strings *)

Module PyStr.

Definition char : Type := N.
Definition pystr : Type := list char.

(** Code point of an ASCII character and the string of an ASCII literal. *)
Definition chr (a : ascii) : char := N_of_ascii a.

Fixpoint str (s : string) : pystr :=
  match s with
  | EmptyString => []
  | String a r => chr a :: str r
  end.

Definition eqb (s t : pystr) : bool := bool_decide (s = t).

(** Truth value of a string: it is not empty. *)
Definition nonempty (s : pystr) : bool := negb (bool_decide (s = [])).

(** [c in s] for a one-character [c]. *)
Definition contains (c : char) (s : pystr) : bool := existsb (N.eqb c) s.

(** [s.startswith(p)] *)
Fixpoint startswith (p s : pystr) : bool :=
  match p, s with
  | [], _ => true
  | a :: p', b :: s' => N.eqb a b && startswith p' s'
  | _ :: _, [] => false
  end.

(** Index of the first occurrence of [c], counted from the head. *)
Fixpoint index_of (c : char) (s : pystr) : option nat :=
  match s with
  | [] => None
  | x :: r => if N.eqb x c then Some 0%nat else S <$> index_of c r
  end.

(** [s.find(c, start)]; [None] stands for Python's [-1]. *)
Definition find (c : char) (start : nat) (s : pystr) : option nat :=
  Nat.add start <$> index_of c (drop start s).

(** [s.rfind(c)] *)
Definition rfind (c : char) (s : pystr) : option nat :=
  (fun i => (length s - 1 - i)%nat) <$> index_of c (rev s).

(** [s.split(c, 1)]: at most one cut, at the first [c]. *)
Definition split1 (c : char) (s : pystr) : list pystr :=
  match index_of c s with
  | Some i => [take i s; drop (S i) s]
  | None => [s]
  end.

(** [s.partition(c)]: text before the first [c], whether [c] was found, and
    the text after it. *)
Definition partition (c : char) (s : pystr) : pystr * bool * pystr :=
  match index_of c s with
  | Some i => (take i s, true, drop (S i) s)
  | None => (s, false, [])
  end.

(** [s.rpartition(c)[2]]: the text after the last [c], or all of [s]. *)
Definition rpartition_tail (c : char) (s : pystr) : pystr :=
  match rfind c s with
  | Some i => drop (S i) s
  | None => s
  end.

(** [s.split(c)]: every cut; the result is never empty. *)
Fixpoint split (c : char) (s : pystr) : list pystr :=
  match s with
  | [] => [[]]
  | x :: r =>
      if N.eqb x c then [] :: split c r
      else match split c r with
           | w :: ws => (x :: w) :: ws
           | [] => [[x]]
           end
  end.

(** [sep.join(parts)] *)
Fixpoint join (sep : pystr) (parts : list pystr) : pystr :=
  match parts with
  | [] => []
  | [w] => w
  | w :: ws => w ++ sep ++ join sep ws
  end.

(** Index of the first occurrence of the substring [p]. *)
Fixpoint index_of_sub (p s : pystr) : option nat :=
  if startswith p s then Some 0%nat
  else match s with
       | [] => None
       | _ :: r => S <$> index_of_sub p r
       end.

(** [s.split(p, 1)[-1]] for a non-empty separator [p]. *)
Definition split1_last (p s : pystr) : pystr :=
  match index_of_sub p s with
  | Some i => drop (i + length p) s
  | None => s
  end.

(** [s.replace(c, "")] for a one-character [c]. *)
Fixpoint remove_char (c : char) (s : pystr) : pystr :=
  match s with
  | [] => []
  | x :: r => if N.eqb x c then remove_char c r else x :: remove_char c r
  end.

(** [s.lstrip(chars)] and [s.rstrip(chars)] with the set given as a test. *)
Fixpoint lstrip_by (p : char -> bool) (s : pystr) : pystr :=
  match s with
  | x :: r => if p x then lstrip_by p r else s
  | [] => []
  end.

Definition rstrip_by (p : char -> bool) (s : pystr) : pystr :=
  rev (lstrip_by p (rev s)).

Definition isascii (c : char) : bool := c <? 128.
Definition isupper_ascii (c : char) : bool := (65 <=? c) && (c <=? 90).
Definition islower_ascii (c : char) : bool := (97 <=? c) && (c <=? 122).
Definition isdigit_ascii (c : char) : bool := (48 <=? c) && (c <=? 57).

(** [s.lower()] on ASCII text. *)
Definition lower_char (c : char) : char := if isupper_ascii c then c + 32 else c.
Definition lower (s : pystr) : pystr := map lower_char s.

End PyStr.
Export PyStr.

(** ** The Unicode character database (version 14.0.0) as CPython reads it *)

Module Unicode.

Definition in_range (c : char) (r : N * N) : bool := (fst r <=? c) && (c <=? snd r).

(** Characters for which [str.isspace] holds; [str.strip()] removes exactly
    these. *)
Definition whitespace_ranges : list (N * N) :=
  [ (0x9, 0xd); (0x1c, 0x20); (0x85, 0x85); (0xa0, 0xa0); (0x1680, 0x1680);
    (0x2000, 0x200a); (0x2028, 0x2029); (0x202f, 0x202f); (0x205f, 0x205f);
    (0x3000, 0x3000) ].

Definition isspace (c : char) : bool := existsb (in_range c) whitespace_ranges.

(** Decimal digits (general category Nd): each block starts at a digit zero
    and holds consecutive digits, in runs of ten. *)
Definition decimal_blocks : list (N * N) :=
  [ (0x30, 10); (0x660, 10); (0x6f0, 10); (0x7c0, 10); (0x966, 10);
    (0x9e6, 10); (0xa66, 10); (0xae6, 10); (0xb66, 10); (0xbe6, 10);
    (0xc66, 10); (0xce6, 10); (0xd66, 10); (0xde6, 10); (0xe50, 10);
    (0xed0, 10); (0xf20, 10); (0x1040, 10); (0x1090, 10); (0x17e0, 10);
    (0x1810, 10); (0x1946, 10); (0x19d0, 10); (0x1a80, 10); (0x1a90, 10);
    (0x1b50, 10); (0x1bb0, 10); (0x1c40, 10); (0x1c50, 10); (0xa620, 10);
    (0xa8d0, 10); (0xa900, 10); (0xa9d0, 10); (0xa9f0, 10); (0xaa50, 10);
    (0xabf0, 10); (0xff10, 10); (0x104a0, 10); (0x10d30, 10); (0x11066, 10);
    (0x110f0, 10); (0x11136, 10); (0x111d0, 10); (0x112f0, 10); (0x11450, 10);
    (0x114d0, 10); (0x11650, 10); (0x116c0, 10); (0x11730, 10); (0x118e0, 10);
    (0x11950, 10); (0x11c50, 10); (0x11d50, 10); (0x11da0, 10); (0x16a60, 10);
    (0x16ac0, 10); (0x16b50, 10); (0x1d7ce, 50); (0x1e140, 10); (0x1e2f0, 10);
    (0x1e950, 10); (0x1fbf0, 10) ].

(** [Py_UNICODE_TODECIMAL]: the decimal value of [c], if it has one. *)
Fixpoint decimal_in (blocks : list (N * N)) (c : char) : option N :=
  match blocks with
  | [] => None
  | (start, len) :: rest =>
      if (start <=? c) && (c <? start + len) then Some ((c - start) mod 10)
      else decimal_in rest c
  end.

Definition to_decimal (c : char) : option N := decimal_in decimal_blocks c.

(** Characters with Numeric_Type Digit that are not decimal digits
    (superscripts, subscripts, circled and dingbat digits, ...). *)
Definition other_digit_ranges : list (N * N) :=
  [ (0xb2, 0xb3); (0xb9, 0xb9); (0x1369, 0x1371); (0x19da, 0x19da);
    (0x2070, 0x2070); (0x2074, 0x2079); (0x2080, 0x2089); (0x2460, 0x2468);
    (0x2474, 0x247c); (0x2488, 0x2490); (0x24ea, 0x24ea); (0x24f5, 0x24fd);
    (0x24ff, 0x24ff); (0x2776, 0x277e); (0x2780, 0x2788); (0x278a, 0x2792);
    (0x10a40, 0x10a43); (0x10e60, 0x10e68); (0x11052, 0x1105a);
    (0x1f100, 0x1f10a) ].

(** [Py_UNICODE_ISDIGIT]: Numeric_Type is Digit or Decimal. *)
Definition isdigit_char (c : char) : bool :=
  match to_decimal c with
  | Some _ => true
  | None => existsb (in_range c) other_digit_ranges
  end.

(** Characters whose NFKC normal form contains one of [/ ? # @ :]. *)
Definition nfkc_delimiter_chars : list N :=
  [ 0x2047; 0x2048; 0x2049; 0x2100; 0x2101; 0x2105; 0x2106; 0x2a74; 0xfe13;
    0xfe16; 0xfe55; 0xfe56; 0xfe5f; 0xfe6b; 0xff03; 0xff0f; 0xff1a; 0xff1f;
    0xff20 ].

End Unicode.

(** ** Built-in string methods that depend on the character database *)

(** [s.strip()] *)
Definition strip (s : pystr) : pystr :=
  rstrip_by Unicode.isspace (lstrip_by Unicode.isspace s).

(** [s.isdigit()] *)
Definition isdigit (s : pystr) : bool :=
  negb (bool_decide (s = [])) && forallb Unicode.isdigit_char s.

(** Exceptions that the modelled code can raise. *)
Inductive exn := ValueError | AttributeError | TypeError.

Inductive result (A : Type) : Type :=
| Ok (a : A)
| Raise (e : exn).
Arguments Ok {A} a.
Arguments Raise {A} e.

#[export] Instance result_ret : MRet result := fun A a => Ok a.

(** Sequencing: an exception ends the computation ([x ← r; k]). *)
#[export] Instance result_bind : MBind result := fun A B k r =>
  match r with
  | Ok a => k a
  | Raise e => Raise e
  end.

(** Value of a string of decimal digits, most significant first. *)
Fixpoint decimal_value (acc : N) (s : pystr) : option N :=
  match s with
  | [] => Some acc
  | c :: r =>
      match Unicode.to_decimal c with
      | Some d => decimal_value (10 * acc + d) r
      | None => None
      end
  end.

(** [sys.get_int_max_str_digits()] *)
Definition int_max_str_digits : nat := 4300.

(** [int(s)] on a string for which [s.isdigit()] holds: there is no sign,
    blank or underscore to handle, so the text is a literal exactly when every
    character is a decimal digit and there are at most 4300 of them. *)
Definition int_of_digits (s : pystr) : result Z :=
  match decimal_value 0 s with
  | Some v =>
      if bool_decide (s = []) then Raise ValueError
      else if (int_max_str_digits <? length s)%nat then Raise ValueError
      else Ok (Z.of_N v)
  | None => Raise ValueError
  end.

(** ** The [ipaddress] module, as far as [urllib.parse] calls into it *)

Module Ipaddress.

Inductive ip :=
| IPv4Address (n : N)
| IPv6Address (n : N) (scope_id : option pystr).

(** [IPv4Address._parse_octet]; [None] stands for its [ValueError]. *)
Definition _parse_octet (octet_str : pystr) : option N :=
  if bool_decide (octet_str = []) then None
  else if negb (forallb isascii octet_str && isdigit octet_str) then None
  else if (3 <? length octet_str)%nat then None
  else if negb (eqb octet_str (str "0")) && startswith (str "0") octet_str then None
  else match decimal_value 0 octet_str with
       | Some octet_int => if 255 <? octet_int then None else Some octet_int
       | None => None
       end.

(** [int.from_bytes(octets, 'big')] *)
Definition from_bytes (octets : list N) : N :=
  fold_left (fun acc b => acc * 256 + b) octets 0.

(** [IPv4Address(address)] for a string; [None] stands for
    [AddressValueError]. *)
Definition ipv4 (address : pystr) : option N :=
  if contains (chr "/") address then None
  else if bool_decide (address = []) then None
  else
    let octets := split (chr ".") address in
    if negb (length octets =? 4)%nat then None
    else from_bytes <$> mapM _parse_octet octets.

Definition hex_value (c : char) : option N :=
  if isdigit_ascii c then Some (c - 48)
  else if (97 <=? c) && (c <=? 102) then Some (c - 87)
  else if (65 <=? c) && (c <=? 70) then Some (c - 55)
  else None.

(** [int(s, 16)] on a string of hexadecimal digits. *)
Fixpoint hex_number (acc : N) (s : pystr) : option N :=
  match s with
  | [] => Some acc
  | c :: r => d ← hex_value c; hex_number (16 * acc + d) r
  end.

(** [IPv6Address._parse_hextet]: an empty hextet passes the two checks and
    fails in [int('', 16)]. *)
Definition _parse_hextet (hextet_str : pystr) : option N :=
  if negb (forallb (fun c => bool_decide (is_Some (hex_value c))) hextet_str) then None
  else if (4 <? length hextet_str)%nat then None
  else if bool_decide (hextet_str = []) then None
  else hex_number 0 hextet_str.

(** ['%x' % n] for [n] below [2^16]. *)
Definition hex_char (d : N) : char := if d <? 10 then 48 + d else 87 + d.
Definition format_x (n : N) : pystr :=
  match lstrip_by (N.eqb 48)
          (map hex_char [n / 4096 mod 16; n / 256 mod 16; n / 16 mod 16; n mod 16]) with
  | [] => str "0"
  | digits => digits
  end.

(** The loop that looks for one empty part strictly between the endpoints:
    [Some None] when there is none, [Some (Some i)] for the only one, [None]
    when a second one is met. *)
Fixpoint find_skip (i : nat) (inner : list pystr) (skip_index : option nat)
  : option (option nat) :=
  match inner with
  | [] => Some skip_index
  | p :: rest =>
      if bool_decide (p = []) then
        match skip_index with
        | Some _ => None
        | None => find_skip (S i) rest (Some i)
        end
      else find_skip (S i) rest skip_index
  end.

(** Folding hextets into the address. *)
Fixpoint shift_in (ip_int : N) (hextets : list pystr) : option N :=
  match hextets with
  | [] => Some ip_int
  | h :: rest => v ← _parse_hextet h; shift_in (N.lor (N.shiftl ip_int 16) v) rest
  end.

(** [IPv6Address._ip_int_from_string] *)
Definition _ip_int_from_string (ip_str : pystr) : option N :=
  if bool_decide (ip_str = []) then None
  else
    let parts := split (chr ":") ip_str in
    if (length parts <? 3)%nat then None
    else
      parts ← (if contains (chr ".") (List.last parts [])
               then ipv4_int ← ipv4 (List.last parts []);
                    Some (removelast parts
                            ++ [format_x (N.land (N.shiftr ipv4_int 16) 0xFFFF);
                                format_x (N.land ipv4_int 0xFFFF)])
               else Some parts);
      if (9 <? length parts)%nat then None
      else
        skip_index ← find_skip 1 (removelast (tail parts)) None;
        '(parts_hi, parts_lo, parts_skipped) ←
          match skip_index with
          | Some skip_index =>
              let parts_hi := skip_index in
              let parts_lo := (length parts - skip_index - 1)%nat in
              parts_hi ← (if bool_decide (List.hd [] parts = [])
                          then if (0 <? parts_hi - 1)%nat then None else Some (parts_hi - 1)%nat
                          else Some parts_hi);
              parts_lo ← (if bool_decide (List.last parts [] = [])
                          then if (0 <? parts_lo - 1)%nat then None else Some (parts_lo - 1)%nat
                          else Some parts_lo);
              if (8 - Z.of_nat (parts_hi + parts_lo) <? 1)%Z then None
              else Some (parts_hi, parts_lo, (8 - (parts_hi + parts_lo))%nat)
          | None =>
              if negb (length parts =? 8)%nat then None
              else if bool_decide (List.hd [] parts = []) then None
              else if bool_decide (List.last parts [] = []) then None
              else Some (length parts, 0%nat, 0%nat)
          end;
        ip_int ← shift_in 0 (take parts_hi parts);
        shift_in (N.shiftl ip_int (16 * N.of_nat parts_skipped))
                 (drop (length parts - parts_lo) parts).

(** [IPv6Address._split_scope_id] *)
Definition _split_scope_id (ip_str : pystr) : option (pystr * option pystr) :=
  let '(addr, sep, scope_id) := partition (chr "%") ip_str in
  if negb sep then Some (addr, None)
  else if bool_decide (scope_id = []) || contains (chr "%") scope_id then None
  else Some (addr, Some scope_id).

(** [IPv6Address(address)] for a string. *)
Definition ipv6 (address : pystr) : option (N * option pystr) :=
  if contains (chr "/") address then None
  else
    '(addr_str, scope_id) ← _split_scope_id address;
    ip_int ← _ip_int_from_string addr_str;
    Some (ip_int, scope_id).

(** [ip_address(address)]: IPv4 is tried first. *)
Definition ip_address (address : pystr) : result ip :=
  match ipv4 address with
  | Some n => Ok (IPv4Address n)
  | None =>
      match ipv6 address with
      | Some (n, scope_id) => Ok (IPv6Address n scope_id)
      | None => Raise ValueError
      end
  end.

End Ipaddress.

(** ** [urllib.parse]: [urlparse] and [urlunparse] *)

Module Urllib.

Definition uses_netloc : list pystr :=
  map str [ ""; "ftp"; "http"; "gopher"; "nntp"; "telnet"; "imap"; "wais";
            "file"; "mms"; "https"; "shttp"; "snews"; "prospero"; "rtsp";
            "rtspu"; "rsync"; "svn"; "svn+ssh"; "sftp"; "nfs"; "git";
            "git+ssh"; "ws"; "wss" ]%string.

Definition uses_params : list pystr :=
  map str [ ""; "ftp"; "hdl"; "prospero"; "http"; "imap"; "https"; "shttp";
            "rtsp"; "rtspu"; "sip"; "sips"; "mms"; "sftp"; "tel" ]%string.

(** [c in scheme_chars]: ASCII letters, digits and [+ - .] *)
Definition scheme_char (c : char) : bool :=
  islower_ascii c || isupper_ascii c || isdigit_ascii c
  || N.eqb c (chr "+") || N.eqb c (chr "-") || N.eqb c (chr ".").

(** [c in _WHATWG_C0_CONTROL_OR_SPACE] *)
Definition c0_control_or_space (c : char) : bool := c <=? 0x20.

Definition _UNSAFE_URL_BYTES_TO_REMOVE : list char := [0x9; 0xd; 0xa].

Record SplitResult := mkSplit {
  s_scheme : pystr; s_netloc : pystr; s_path : pystr;
  s_query : pystr; s_fragment : pystr }.

Record ParseResult := mkParse {
  scheme : pystr; netloc : pystr; path : pystr;
  params : pystr; query : pystr; fragment : pystr }.

(** Slices: [s[:i]], [s[i:]] and [s[a:b]]. *)
Definition upto (i : nat) (s : pystr) : pystr := take i s.
Definition from (i : nat) (s : pystr) : pystr := drop i s.
Definition slice (a b : nat) (s : pystr) : pystr := take (b - a) (drop a s).

Definition _splitparams (url : pystr) : pystr * pystr :=
  if contains (chr "/") url then
    match find (chr ";") (default 0%nat (rfind (chr "/") url)) url with
    | None => (url, [])
    | Some i => (upto i url, from (i + 1) url)
    end
  else
    match find (chr ";") 0 url with
    | Some i => (upto i url, from (i + 1) url)
    | None => (removelast url, url)   (* i = -1: url[:-1], url[0:] *)
    end.

Definition _splitnetloc (url : pystr) (start : nat) : pystr * pystr :=
  let delim :=
    fold_left (fun delim c =>
                 match find c start url with
                 | Some wdelim => Nat.min delim wdelim
                 | None => delim
                 end)
              [chr "/"; chr "?"; chr "#"] (length url) in
  (slice start delim url, from delim url).

(** [_checknetloc]: a netloc that is not pure ASCII is normalised (NFKC)
    after [@ : # ?] are taken out, and refused when the normal form holds one
    of [/ ? # @ :].  Normalisation works character by character here and
    produces one of these only from the characters of
    [Unicode.nfkc_delimiter_chars]. *)
Definition _checknetloc (netloc : pystr) : result unit :=
  if bool_decide (netloc = []) || forallb isascii netloc then Ok ()
  else if existsb (fun c => bool_decide (c ∈ Unicode.nfkc_delimiter_chars)) netloc
       then Raise ValueError
       else Ok ().

(** [re.match(r"\Av[a-fA-F0-9]+\..+\Z", hostname)] *)
Definition ipvfuture_match (hostname : pystr) : bool :=
  match hostname with
  | v :: rest =>
      N.eqb v (chr "v") &&
      (let tail := lstrip_by (fun c => bool_decide (is_Some (Ipaddress.hex_value c))) rest in
       (length tail <? length rest)%nat &&
       match tail with
       | dot :: more =>
           N.eqb dot (chr ".") && negb (bool_decide (more = []))
           && forallb (fun c => negb (N.eqb c 0xa)) more
       | [] => false
       end)
  | [] => false
  end.

Definition _check_bracketed_host (hostname : pystr) : result unit :=
  if startswith (str "v") hostname then
    if ipvfuture_match hostname then Ok () else Raise ValueError
  else
    ip ← Ipaddress.ip_address hostname;
    match ip with
    | Ipaddress.IPv4Address _ => Raise ValueError
    | Ipaddress.IPv6Address _ _ => Ok ()
    end.

Definition _check_bracketed_netloc (netloc : pystr) : result unit :=
  let hostname_and_port := rpartition_tail (chr "@") netloc in
  let '(before_bracket, have_open_br, bracketed) := partition (chr "[") hostname_and_port in
  hostname ←
    (if have_open_br then
       if negb (bool_decide (before_bracket = [])) then Raise ValueError
       else
         let '(hostname, _, port) := partition (chr "]") bracketed in
         if negb (bool_decide (port = [])) && negb (startswith (str ":") port)
         then Raise ValueError
         else Ok hostname
     else Ok (partition (chr ":") hostname_and_port).1.1);
  _check_bracketed_host hostname.

(** [if c in url: url, x = url.split(c, 1)]: the new [url] and [x], which
    stays empty when [c] does not occur. *)
Definition cut (c : char) (url : pystr) : pystr * pystr :=
  if contains c url
  then (List.hd [] (split1 c url), List.last (split1 c url) [])
  else (url, []).

Definition urlsplit (url : pystr) : result SplitResult :=
  let url := lstrip_by c0_control_or_space url in
  let url := fold_left (fun u b => remove_char b u) _UNSAFE_URL_BYTES_TO_REMOVE url in
  let '(scheme, url) :=
    match find (chr ":") 0 url with
    | Some i =>
        if (0 <? i)%nat
           && forallb (fun c => isascii c && (islower_ascii c || isupper_ascii c)) (upto 1 url)
           && forallb scheme_char (upto i url)
        then (lower (upto i url), from (i + 1) url)
        else ([], url)
    | None => ([], url)
    end in
  '(netloc, url) ←
    (if eqb (upto 2 url) (str "//") then
       let '(netloc, url) := _splitnetloc url 2 in
       let open_br := contains (chr "[") netloc in
       let close_br := contains (chr "]") netloc in
       if (open_br && negb close_br) || (close_br && negb open_br)
       then Raise ValueError
       else
         _ ← (if open_br && close_br then _check_bracketed_netloc netloc else Ok ());
         Ok (netloc, url)
     else Ok ([], url));
  let '(url, fragment) := cut (chr "#") url in
  let '(url, query) := cut (chr "?") url in
  _ ← _checknetloc netloc;
  Ok (mkSplit scheme netloc url query fragment).

Definition urlparse (url : pystr) : result ParseResult :=
  r ← urlsplit url;
  let '(url, params) :=
    if bool_decide (s_scheme r ∈ uses_params) && contains (chr ";") (s_path r)
    then _splitparams (s_path r)
    else (s_path r, []) in
  Ok (mkParse (s_scheme r) (s_netloc r) url params (s_query r) (s_fragment r)).

Definition urlunsplit (r : SplitResult) : pystr :=
  let url := s_path r in
  let url :=
    if nonempty (s_netloc r)
       || (nonempty (s_scheme r) && bool_decide (s_scheme r ∈ uses_netloc)
           && negb (eqb (upto 2 url) (str "//")))
    then
      let url := if nonempty url && negb (eqb (upto 1 url) (str "/"))
                 then str "/" ++ url else url in
      str "//" ++ s_netloc r ++ url
    else url in
  let url := if nonempty (s_scheme r) then s_scheme r ++ str ":" ++ url else url in
  let url := if nonempty (s_query r) then url ++ str "?" ++ s_query r else url in
  let url := if nonempty (s_fragment r) then url ++ str "#" ++ s_fragment r else url in
  url.

Definition urlunparse (p : ParseResult) : pystr :=
  let url := if nonempty (params p) then path p ++ str ";" ++ params p else path p in
  urlunsplit (mkSplit (scheme p) (netloc p) url (query p) (fragment p)).

End Urllib.

(** ** [scrape_the_web.py] *)

Module Scraper.
Import Urllib.

Definition recognized_schemes : list pystr :=
  map str ["http://"; "https://"; "ftp://"; "ftps://"]%string.

(** The nested helper of [scrapeweb]: completes a partial URL.  [urlparse]
    raises [ValueError]; only the scheme branch catches it. *)
Definition _autocomplete_url (partial_url : pystr) : result pystr :=
  let partial_url := strip partial_url in
  if negb (nonempty partial_url) then Ok []
  else if existsb (fun p => startswith p partial_url) recognized_schemes then
    match urlparse partial_url with
    | Ok parsed =>
        if nonempty (netloc parsed) then Ok (urlunparse parsed)
        else
          let domain_part := split1_last (str "//") partial_url in
          if negb (nonempty domain_part) then Ok (str "https://" ++ domain_part)
          else if contains (chr ".") domain_part
               then Ok (str "https://" ++ domain_part)
               else Ok (str "https://" ++ domain_part ++ str ".com")
    | Raise ValueError => Ok (str "https://" ++ partial_url)
    | Raise e => Raise e
    end
  else
    parsed ← urlparse (str "//" ++ partial_url);
    let scheme := str "https" in
    let query := query parsed in
    let fragment := fragment parsed in
    let '(netloc, path) :=
      if negb (nonempty (netloc parsed)) then
        let first_segment := List.hd [] (split (chr "/") partial_url) in
        let path_parts := tail (split (chr "/") partial_url) in
        let rebuilt := if negb (bool_decide (path_parts = []))
                       then str "/" ++ join (str "/") path_parts else [] in
        if nonempty first_segment && contains (chr ".") first_segment
        then (first_segment, rebuilt)
        else if nonempty first_segment
             then (first_segment ++ str ".com", rebuilt)
             else (str "example.com", path parsed)
      else (netloc parsed, path parsed) in
    let path := if nonempty netloc && nonempty path && negb (startswith (str "/") path)
                then str "/" ++ path else path in
    let path := if nonempty netloc && negb (nonempty path) then str "/" else path in
    Ok (urlunparse (mkParse scheme netloc path [] query fragment)).

(** What the try block of [scrapeweb] gets from the network and the HTML
    parser, both outside this program: either the text of the page, as
    [soup.get_text(separator="\n", strip=True)] returns it once the script,
    style, nav, footer and aside nodes are removed, or the exception raised on
    the way, by the [except] clause that catches it, with [str(e)]. *)
Inductive failure :=
| HTTPError | ConnectionError | Timeout | RequestException | OtherException.

Inductive fetched :=
| Page (raw_text : pystr)
| Failed (kind : failure) (details : pystr).

(** [re.sub(r'\n\s*\n', '\n', text)]: a newline followed by blanks that hold
    another newline is replaced, up to the last such newline, by one newline.
    [pending] holds the blanks read since the last newline of the current
    run ([None] outside a run); they are output when the run ends. *)
Fixpoint collapse_blank_lines (pending : option pystr) (text : pystr) : pystr :=
  match text, pending with
  | [], None => []
  | [], Some blanks => blanks
  | c :: rest, None =>
      if N.eqb c 0xa then c :: collapse_blank_lines (Some []) rest
      else c :: collapse_blank_lines None rest
  | c :: rest, Some blanks =>
      if N.eqb c 0xa then collapse_blank_lines (Some []) rest
      else if Unicode.isspace c then collapse_blank_lines (Some (blanks ++ [c])) rest
      else blanks ++ c :: collapse_blank_lines None rest
  end.

Definition extract_text (raw_text : pystr) : pystr :=
  strip (collapse_blank_lines None raw_text).

(** The dict handed to [json.dumps]: the [status] key is the constructor. *)
Inductive envelope :=
| Success (original_url scraped_url content_preview full_content : pystr)
| Error (message : pystr) (context : list (string * pystr)).

Definition max_len : nat := 5000.
Definition truncation_marker : pystr := [0xa] ++ str "... (content truncated)".

(** Lines 102-110: truncation and preview. *)
Definition shape_content (text_content : pystr) : pystr * pystr :=
  let text_content :=
    if (max_len <? length text_content)%nat
    then take max_len text_content ++ truncation_marker
    else text_content in
  (take 200 text_content
     ++ (if (200 <? length text_content)%nat then str "..." else []),
   text_content).

Definition failure_prefix (kind : failure) : pystr :=
  match kind with
  | HTTPError => str "HTTP error occurred: "
  | ConnectionError => str "Connection error: "
  | Timeout => str "Request timed out: "
  | RequestException => str "Error during web request: "
  | OtherException => str "An unexpected error occurred: "
  end.

(** Lines 91-123. *)
Definition respond (url completed_url : pystr) (r : fetched) : envelope :=
  match r with
  | Page raw_text =>
      let '(content_preview, full_content) := shape_content (extract_text raw_text) in
      Success url completed_url content_preview full_content
  | Failed kind details =>
      Error (failure_prefix kind ++ details)
            [("original_url", url); ("scraped_url", completed_url)]
  end.

(** A call of [scrapeweb]: what it returns or raises, and the URLs it asked
    the network for, in order. *)
Record run := mkRun { outcome : result envelope; requested : list pystr }.

Definition scrapeweb (get : pystr -> fetched) (url : pystr) : run :=
  if negb (nonempty url) || negb (nonempty (strip url))
  then mkRun (Ok (Error (str "URL cannot be empty.") [])) []
  else
    match _autocomplete_url url with
    | Raise e => mkRun (Raise e) []
    | Ok completed_url =>
        let context := [("original_url", url); ("attempted_url", completed_url)] in
        match urlparse completed_url with
        | Ok parsed_final_url =>
            if negb (nonempty (scheme parsed_final_url))
               || negb (nonempty (netloc parsed_final_url))
            then mkRun (Ok (Error (str "Failed to construct a valid, absolute URL. Scheme or domain is missing.") context)) []
            else mkRun (Ok (respond url completed_url (get completed_url))) [completed_url]
        | Raise ValueError =>
            mkRun (Ok (Error (str "The constructed URL is invalid and cannot be parsed.") context)) []
        | Raise e => mkRun (Raise e) []
        end
    end.

End Scraper.

(** ** [newsasker.py] *)

Module News.

Inductive endpoint := top_headlines | everything.

Definition endpoint_name (e : endpoint) : pystr :=
  match e with
  | top_headlines => str "top-headlines"
  | everything => str "everything"
  end.

(** A value of the parsed response body.  The program only ever looks up
    keys, iterates and interpolates values into text, so a number, an array
    and an object carry the text [str()] prints for them as [shown]. *)
Inductive json :=
| JNull
| JBool (b : bool)
| JStr (s : pystr)
| JNum (shown : pystr)
| JArr (shown : pystr) (items : list json)
| JObj (shown : pystr) (fields : list (pystr * json)).

(** [str(v)], as an f-string interpolates it. *)
Definition py_str (v : json) : pystr :=
  match v with
  | JNull => str "None"
  | JBool true => str "True"
  | JBool false => str "False"
  | JStr s => s
  | JNum shown | JArr shown _ | JObj shown _ => shown
  end.

Fixpoint assoc (key : pystr) (fields : list (pystr * json)) : option json :=
  match fields with
  | [] => None
  | (k, v) :: rest => if eqb k key then Some v else assoc key rest
  end.

(** [d.get(key, fallback)]; only a dict has the method. *)
Definition get (key : pystr) (fallback : json) (d : json) : result json :=
  match d with
  | JObj _ fields => Ok (default fallback (assoc key fields))
  | _ => Raise AttributeError
  end.

(** [for art in v]: a string yields its characters and a dict its keys. *)
Definition iterate (v : json) : result (list json) :=
  match v with
  | JArr _ items => Ok items
  | JStr s => Ok (map (fun c => JStr [c]) s)
  | JObj _ fields => Ok (map (fun kv => JStr kv.1) fields)
  | JNull | JBool _ | JNum _ => Raise TypeError
  end.

Record article := mkArticle { title : json; url : json }.

Inductive param := PStr (s : pystr) | PInt (n : Z).

Inductive envelope :=
| Success (chosen : endpoint) (params : gmap string param) (articles : list article)
| Error (message : pystr).

(** What [requests.get(base_url, params=params)], [raise_for_status] and
    [resp.json()] give: the parsed body, or some exception [e] with its
    [str(e)]. *)
Inductive reply :=
| Body (data : json)
| RequestFailed (details : pystr).

(** The validator of the page-size prompt:
    [val.isdigit() and 1 <= int(val) <= 100]. *)
Definition validate_page_size (val : pystr) : result bool :=
  if isdigit val then
    n ← int_of_digits val;
    Ok (bool_decide (1 <= n)%Z && bool_decide (n <= 100)%Z)
  else Ok false.

(** *** The prompt layer

    The user is the list of texts they submit, in order; a prompt that finds
    the list empty keeps waiting. *)
Inductive outcome (A : Type) : Type :=
| Returned (a : A)
| Raised (e : exn)
| Waiting.
Arguments Returned {A} a.
Arguments Raised {A} e.
Arguments Waiting {A}.

Definition prompt (A : Type) : Type := list pystr -> outcome (A * list pystr).

#[export] Instance prompt_ret : MRet prompt := fun A a typed => Returned (a, typed).

#[export] Instance prompt_bind : MBind prompt := fun A B k m typed =>
  match m typed with
  | Returned (a, rest) => k a rest
  | Raised e => Raised e
  | Waiting => Waiting
  end.

(** [inquirer.text(...).execute()] without a validator. *)
Definition text : prompt pystr := fun typed =>
  match typed with
  | answer :: rest => Returned (answer, rest)
  | [] => Waiting
  end.

(** [inquirer.text(..., validate=v).execute()]: a rejected submission leaves
    the prompt open for the next one; an exception of [v] escapes. *)
Fixpoint text_validated (v : pystr -> result bool) (typed : list pystr)
  : outcome (pystr * list pystr) :=
  match typed with
  | [] => Waiting
  | answer :: rest =>
      match v answer with
      | Ok true => Returned (answer, rest)
      | Ok false => text_validated v rest
      | Raise e => Raised e
      end
  end.

Definition lift {A} (r : result A) : prompt A := fun typed =>
  match r with
  | Ok a => Returned (a, typed)
  | Raise e => Raised e
  end.

(** Step 2 and the page-size prompt (lines 24-55). *)
Definition collect_params (chosen : endpoint) : prompt (gmap string param) :=
  api_key ← text;
  let params : gmap string param := {[ "apiKey" := PStr api_key ]} in
  params ← match chosen with
           | top_headlines =>
               country ← text;
               let params := if nonempty country
                             then <["country" := PStr country]> params else params in
               category ← text;
               mret (if nonempty category
                     then <["category" := PStr category]> params else params)
           | everything =>
               query ← text;
               let params := <["q" := PStr query]> params in
               from_date ← text;
               mret (if nonempty from_date
                     then <["from" := PStr from_date]> params else params)
           end;
  page_size ← text_validated validate_page_size;
  n ← lift (int_of_digits page_size);
  mret (<["pageSize" := PInt n]> params).

(** The parameters gathered before the page size is asked for, from the
    three answers given so far. *)
Definition first_params (chosen : endpoint) (api_key a b : pystr) : gmap string param :=
  match chosen with
  | top_headlines =>
      let params := {[ "apiKey" := PStr api_key ]} in
      let params := if nonempty a then <["country" := PStr a]> params else params in
      if nonempty b then <["category" := PStr b]> params else params
  | everything =>
      let params := <["q" := PStr a]> {[ "apiKey" := PStr api_key ]} in
      if nonempty b then <["from" := PStr b]> params else params
  end.

(** [status != "ok"] is false only for the string ["ok"]. *)
Definition is_ok (status : json) : bool :=
  match status with
  | JStr s => eqb s (str "ok")
  | _ => false
  end.

(** One element of the list comprehension of lines 78-81. *)
Definition project (art : json) : result article :=
  title ← get (str "title") JNull art;
  url ← get (str "url") JNull art;
  Ok (mkArticle title url).

(** [str(idx)] *)
Definition str_of_nat (idx : nat) : pystr :=
  str (DecimalString.NilZero.string_of_uint (Nat.to_uint idx)).

(** Step 5: the three [print] calls per article, one line each. *)
Fixpoint display (idx : nat) (results : list article) : list pystr :=
  match results with
  | [] => []
  | art :: rest =>
      [ str_of_nat idx ++ str ". " ++ py_str (title art);
        str "   " ++ py_str (url art);
        [] ] ++ display (S idx) rest
  end.

(** Steps 4 and 5 (lines 63-94): the value returned or the exception raised,
    and the lines printed. *)
Definition handle_reply (chosen : endpoint) (params : gmap string param) (r : reply)
  : result envelope * list pystr :=
  match r with
  | RequestFailed details => (Ok (Error (str "API request failed: " ++ details)), [])
  | Body data =>
      match get (str "status") JNull data with
      | Raise e => (Raise e, [])
      | Ok status =>
          if negb (is_ok status) then
            match get (str "message") JNull data with
            | Ok message =>
                (Ok (Error (str "API returned status '" ++ py_str status
                              ++ str "': " ++ py_str message)), [])
            | Raise e => (Raise e, [])
            end
          else
            match articles ← get (str "articles") (JArr (str "[]") []) data;
                  items ← iterate articles;
                  mapM project items with
            | Ok results => (Ok (Success chosen params results), display 1 results)
            | Raise e => (Raise e, [])
            end
      end
  end.

(** A call of [fetch_and_display_news]: how it ends, what it printed, and the
    requests it sent. *)
Record run := mkRun {
  ended : outcome envelope;
  printed : list pystr;
  requests : list (pystr * gmap string param) }.

Definition fetch_and_display_news
    (api : pystr -> gmap string param -> reply)
    (chosen : endpoint) (typed : list pystr) : run :=
  match collect_params chosen typed with
  | Returned (params, _) =>
      let base_url := str "https://newsapi.org/v2/" ++ endpoint_name chosen in
      let '(r, out) := handle_reply chosen params (api base_url params) in
      mkRun (match r with Ok e => Returned e | Raise e => Raised e end)
            out [(base_url, params)]
  | Raised e => mkRun (Raised e) [] []
  | Waiting => mkRun Waiting [] []
  end.

End News.

(** ** The specification's wording, where it is compared with the code *)

Module Spec.

(** The truncation suffix as the specification spells it. *)
Definition truncation_suffix : pystr := str "... (content truncated)".

(** Bound on [full_content] as the specification counts it. *)
Definition full_content_bound : nat := 5023.

(** A page size as the specification accepts it: a non-empty string of ASCII
    digits, without sign, whose base-10 value lies in [1, 100]. *)
Fixpoint ascii_value (acc : N) (s : pystr) : N :=
  match s with
  | [] => acc
  | c :: r => ascii_value (10 * acc + (c - 48)) r
  end.

(** A page of 5001 letters [a], as the network could deliver it. *)
Definition long_page : pystr := replicate 5001 97.

Definition page_size_ok (val : pystr) : bool :=
  nonempty val && forallb isdigit_ascii val
  && (1 <=? ascii_value 0 val) && (ascii_value 0 val <=? 100).

(** A body with which the news service refuses a request. *)
Definition invalid_key_body : News.json :=
  News.JObj (str "{...}")
    [ (str "status", News.JStr (str "error"));
      (str "code", News.JStr (str "apiKeyInvalid"));
      (str "message", News.JStr (str "Your API key is invalid.")) ].

(** The host of a URL: the network location [urlparse] finds in it. *)
Definition host (url : pystr) : result pystr :=
  p ← Urllib.urlparse url; Ok (Urllib.netloc p).

End Spec.


(** ** Auxiliary definitions for the analysis of [urlparse] *)

Module Analysis.
Import Urllib Scraper.

(** The characters that end a network location. *)
Definition is_delim (c : char) : bool :=
  N.eqb c (chr "/") || N.eqb c (chr "?") || N.eqb c (chr "#").

Definition not_delim (c : char) : bool := negb (is_delim c).

(** Longest prefix whose characters satisfy [p]; [lstrip_by p] is the rest. *)
Fixpoint span_by (p : char → bool) (s : pystr) : pystr :=
  match s with
  | x :: r => if p x then x :: span_by p r else []
  | [] => []
  end.

(** The removal of tab, carriage return and newline in [urlsplit]. *)
Definition clean (url : pystr) : pystr :=
  fold_left (λ u b, remove_char b u) _UNSAFE_URL_BYTES_TO_REMOVE url.

Definition safe (c : char) : bool :=
  negb (N.eqb c 0x9) && negb (N.eqb c 0xd) && negb (N.eqb c 0xa).

(** The three checks of [urlsplit] on a network location. *)
Definition netloc_checks (netloc : pystr) : result unit :=
  let open_br := contains (chr "[") netloc in
  let close_br := contains (chr "]") netloc in
  if (open_br && negb close_br) || (close_br && negb open_br)
  then Raise ValueError
  else
    _ ← (if open_br && close_br then _check_bracketed_netloc netloc else Ok ());
    _checknetloc netloc.

(** The split of path and params in [urlparse], and its inverse in
    [urlunparse]. *)
Definition split_params (scheme url : pystr) : pystr * pystr :=
  if bool_decide (scheme ∈ uses_params) && contains (chr ";") url
  then _splitparams url else (url, []).

Definition join_params (path params : pystr) : pystr :=
  if nonempty params then path ++ str ";" ++ params else path.

(** What [urlparse] makes of the text that follows the network location. *)
Definition parse_tail (scheme rest : pystr) : pystr * pystr * pystr * pystr :=
  let '(url, fragment) := cut (chr "#") rest in
  let '(url, query) := cut (chr "?") url in
  let '(url, params) := split_params scheme url in
  (url, params, query, fragment).

(** What [urlunparse] puts after the network location. *)
Definition unparse_tail (t : pystr * pystr * pystr * pystr) : pystr :=
  let '(path, params, query, fragment) := t in
  join_params path params
  ++ (if nonempty query then str "?" ++ query else [])
  ++ (if nonempty fragment then str "#" ++ fragment else []).

(** [urlparse] on a URL that starts with [scheme://]. *)
Definition parse_absolute (scheme v : pystr) : result ParseResult :=
  let w := clean v in
  let n := span_by not_delim w in
  _ ← netloc_checks n;
  let '(path, params, query, fragment) := parse_tail scheme (lstrip_by not_delim w) in
  Ok (mkParse scheme n path params query fragment).

(** [urlsplit] from the point where the scheme has been taken off. *)
Definition split_after_scheme (scheme url : pystr) : result SplitResult :=
  '(netloc, url) ←
    (if eqb (upto 2 url) (str "//") then
       let '(netloc, url) := _splitnetloc url 2 in
       let open_br := contains (chr "[") netloc in
       let close_br := contains (chr "]") netloc in
       if (open_br && negb close_br) || (close_br && negb open_br)
       then Raise ValueError
       else
         _ ← (if open_br && close_br then _check_bracketed_netloc netloc else Ok ());
         Ok (netloc, url)
     else Ok ([], url));
  let '(url, fragment) := cut (chr "#") url in
  let '(url, query) := cut (chr "?") url in
  _ ← _checknetloc netloc;
  Ok (mkSplit scheme netloc url query fragment).

(** The schemes of [recognized_schemes], without their [://]. *)
Definition scheme_names : list pystr := map str ["http"; "https"; "ftp"; "ftps"]%string.

(** The text after the network location is empty or starts with [/ ? #]. *)
Definition tail_ok (rest : pystr) : Prop :=
  match rest with
  | [] => True
  | c :: _ => is_delim c = true
  end.

(** The path starts with [/] unless path and params are both empty. *)
Definition starts_with_slash (s : pystr) : Prop :=
  match s with
  | [] => True
  | c :: _ => c = chr "/"
  end.

(** No whitespace character at all. *)
Definition no_space (s : pystr) : bool := forallb (λ c, negb (Unicode.isspace c)) s.

End Analysis.

(** ** Auxiliary definitions for the analysis of the extracted text *)

Module Text.

(** A blank that is not a newline. *)
Definition inline_blank (c : char) : bool := Unicode.isspace c && negb (N.eqb c 0xa).

(** No newline is followed by blanks and another newline; [after_newline]
    tells that a newline and only blanks have been read last. *)
Fixpoint blank_run_free (after_newline : bool) (s : pystr) : bool :=
  match s with
  | [] => true
  | c :: r =>
      if N.eqb c 0xa then negb after_newline && blank_run_free true r
      else if Unicode.isspace c then blank_run_free after_newline r
      else blank_run_free false r
  end.

End Text.

(** * Properties of the scraper *)

Section Strip.

Variable p : char -> bool.

Lemma lstrip_by_fixed (s : pystr) :
  match s with x :: _ => p x = false | [] => True end → lstrip_by p s = s.
Proof. destruct s as [|x r]; simpl; [done|]. by intros ->. Qed.

Lemma lstrip_by_head (s : pystr) :
  match lstrip_by p s with x :: _ => p x = false | [] => True end.
Proof.
  induction s as [|x r IH]; simpl; [done|].
  destruct (p x) eqn:E; [exact IH | exact E].
Qed.

Lemma lstrip_by_idemp (s : pystr) : lstrip_by p (lstrip_by p s) = lstrip_by p s.
Proof. apply lstrip_by_fixed, lstrip_by_head. Qed.

Lemma lstrip_by_suffix (s : pystr) : ∃ pre, s = pre ++ lstrip_by p s.
Proof.
  induction s as [|x r [pre IH]]; simpl; [by exists []|].
  destruct (p x); [exists (x :: pre); simpl; congruence | by exists []].
Qed.

Lemma rstrip_by_prefix (s : pystr) : ∃ suf, s = rstrip_by p s ++ suf.
Proof.
  unfold rstrip_by. destruct (lstrip_by_suffix (rev s)) as [pre E].
  exists (rev pre). rewrite <- rev_app_distr, <- E. by rewrite rev_involutive.
Qed.

Lemma rstrip_by_idemp (s : pystr) : rstrip_by p (rstrip_by p s) = rstrip_by p s.
Proof. unfold rstrip_by. by rewrite rev_involutive, lstrip_by_idemp. Qed.

(** Stripping the right end keeps a left end that is already stripped. *)
Lemma lstrip_rstrip_fixed (s : pystr) :
  lstrip_by p s = s → lstrip_by p (rstrip_by p s) = rstrip_by p s.
Proof.
  intros Hs. apply lstrip_by_fixed.
  destruct (rstrip_by_prefix s) as [suf E].
  destruct (rstrip_by p s) as [|x r]; [done|].
  pose proof (lstrip_by_head s) as Hh. rewrite Hs, E in Hh. exact Hh.
Qed.

End Strip.

Lemma strip_idemp (s : pystr) : strip (strip s) = strip s.
Proof.
  unfold strip.
  rewrite (lstrip_rstrip_fixed _ _ (lstrip_by_idemp _ s)).
  apply rstrip_by_idemp.
Qed.

Import Urllib Scraper.

(** C1 (as the code behaves). For the input "openai" [_autocomplete_url]
    returns "https://openai/": the host of the result is "openai", not
    "openai.com"; the branch that appends ".com" is not reached. *)
Theorem autocomplete_openai :
  _autocomplete_url (str "openai") = Ok (str "https://openai/")
  ∧ Spec.host (str "https://openai/") = Ok (str "openai")
  ∧ str "openai" ≠ str "openai.com".
Proof. repeat split; [vm_compute; reflexivity .. | discriminate]. Qed.

(** C2 (as the code behaves). On the input "[" the call of [urlparse] in the
    schemeless branch of [_autocomplete_url] raises [ValueError], which no
    handler catches: [scrapeweb] raises instead of returning an envelope. *)
Theorem scrapeweb_raises_on_open_bracket (get : pystr → fetched) :
  scrapeweb get (str "[") = mkRun (Raise ValueError) [].
Proof. vm_compute. reflexivity. Qed.

(** C8. An empty or whitespace-only input makes [scrapeweb] return the
    Error envelope "URL cannot be empty." at once: nothing is requested from
    the network. *)
Theorem scrapeweb_empty_input (get : pystr → fetched) (url : pystr) :
  strip url = [] →
  scrapeweb get url = mkRun (Ok (Error (str "URL cannot be empty.") [])) [].
Proof.
  intros H. unfold scrapeweb. rewrite H.
  by rewrite orb_true_r.
Qed.

Lemma scrapeweb_empty_input_witness :
  strip (str "  ") = []
  ∧ scrapeweb (λ _, Page []) (str "  ")
    = mkRun (Ok (Error (str "URL cannot be empty.") [])) [].
Proof.
  split; [vm_compute; reflexivity|].
  apply (scrapeweb_empty_input (λ _, Page []) (str "  ")).
  vm_compute; reflexivity.
Defined.

(** C10. [_autocomplete_url] gives the same result for an input and for the
    input without its surrounding whitespace, and [scrapeweb] asks the
    network for the same URLs in both cases. *)
Theorem autocomplete_ignores_surrounding_whitespace (s : pystr) :
  _autocomplete_url s = _autocomplete_url (strip s)
  ∧ ∀ get, requested (scrapeweb get s) = requested (scrapeweb get (strip s)).
Proof.
  assert (E : _autocomplete_url s = _autocomplete_url (strip s)).
  { unfold _autocomplete_url. by rewrite strip_idemp. }
  split; [exact E|]. intros get. unfold scrapeweb.
  rewrite strip_idemp, <- E.
  destruct (nonempty (strip s)) eqn:Hs.
  - assert (nonempty s = true) as ->.
    { destruct s; [discriminate Hs | reflexivity]. }
    simpl. destruct (_autocomplete_url s) as [completed|e]; [|done].
    destruct (urlparse completed) as [parsed|[]]; [|done..].
    by destruct (_ || _).
  - by rewrite !orb_true_r.
Qed.

(** A Success envelope comes from a fetched page, shaped by lines 102-110. *)
Lemma scrapeweb_success (get : pystr → fetched) (url o s p f : pystr) :
  outcome (scrapeweb get url) = Ok (Success o s p f) →
  ∃ raw, get s = Page raw ∧ o = url
    ∧ p = (shape_content (extract_text raw)).1
    ∧ f = (shape_content (extract_text raw)).2.
Proof.
  unfold scrapeweb. destruct (_ || _); [discriminate|].
  destruct (_autocomplete_url url) as [completed|e]; [|discriminate].
  destruct (urlparse completed) as [parsed|[]]; [|discriminate..].
  destruct (_ || _); [discriminate|]. cbn [outcome]. unfold respond.
  destruct (get completed) as [raw|kind details] eqn:G; [|discriminate].
  destruct (shape_content (extract_text raw)) as [p' f'] eqn:S.
  intros E. injection E as <- <- <- <-.
  exists raw. rewrite S. repeat split; assumption || reflexivity.
Qed.


(** Lines 102-110 with the limit [m] in place of 5000. *)
Lemma truncated_preview (text marker : pystr) (m : nat) :
  (200 < m)%nat → (m < length text)%nat →
  take 200 (take m text ++ marker) = take 200 text
  ∧ (200 <? length (take m text ++ marker))%nat = true.
Proof.
  intros Hm L. split.
  - rewrite take_app_le by (rewrite length_take; lia).
    rewrite take_take. f_equal. lia.
  - apply Nat.ltb_lt. rewrite length_app, length_take. lia.
Qed.

Lemma max_len_bounds : (200 < max_len)%nat ∧ max_len = 5000%nat.
Proof. split; [apply Nat.ltb_lt; vm_compute|]; reflexivity. Qed.

Lemma shape_content_eq (text : pystr) :
  shape_content text
  = let full := if (max_len <? length text)%nat
                then take max_len text ++ truncation_marker else text in
    (take 200 full ++ (if (200 <? length full)%nat then str "..." else []), full).
Proof. reflexivity. Qed.

(** C3 (amended). When the extracted text is longer than 5000 characters,
    [full_content] is its first 5000 characters, then a newline, then
    "... (content truncated)", and [content_preview] is its first 200
    characters followed by "..."; text of at most 5000 characters is
    returned unchanged. *)
Theorem full_content_truncation (get : pystr → fetched) (url o s p f : pystr) :
  outcome (scrapeweb get url) = Ok (Success o s p f) →
  ∃ raw, get s = Page raw ∧
    ((5000 < length (extract_text raw))%nat →
       f = take 5000 (extract_text raw) ++ [0xa] ++ str "... (content truncated)"
       ∧ p = take 200 (extract_text raw) ++ str "...")
    ∧ ((length (extract_text raw) ≤ 5000)%nat → f = extract_text raw).
Proof.
  intros H. destruct (scrapeweb_success _ _ _ _ _ _ H) as (raw & G & _ & -> & ->).
  exists raw. split; [exact G|]. clear.
  rewrite shape_content_eq. destruct max_len_bounds as [B <-].
  generalize (extract_text raw) as text. intros text. cbn zeta.
  split.
  - intros L. destruct (truncated_preview text truncation_marker _ B L) as [E1 E2].
    apply Nat.ltb_lt in L. rewrite L. cbn [fst snd]. by rewrite E1, E2.
  - intros L. apply Nat.ltb_ge in L. by rewrite L.
Qed.

Lemma full_content_truncation_witness :
  ∃ raw, (λ _, Page Spec.long_page) (str "https://example.com/") = Page raw ∧
    ((5000 < length (extract_text raw))%nat →
       take 5000 Spec.long_page ++ truncation_marker
       = take 5000 (extract_text raw) ++ [0xa] ++ str "... (content truncated)"
       ∧ take 200 Spec.long_page ++ str "..."
         = take 200 (extract_text raw) ++ str "...")
    ∧ ((length (extract_text raw) ≤ 5000)%nat →
       take 5000 Spec.long_page ++ truncation_marker = extract_text raw).
Proof.
  apply (full_content_truncation (λ _, Page Spec.long_page) (str "example.com")
           (str "example.com") (str "https://example.com/")
           (take 200 Spec.long_page ++ str "...")
           (take 5000 Spec.long_page ++ truncation_marker)).
  vm_compute. reflexivity.
Defined.

Lemma differ_at (a b : pystr) (i : nat) (x y : char) :
  a !! i = Some x → b !! i = Some y → x ≠ y → a ≠ b.
Proof. congruence. Qed.

(** C3 as stated fails: for a page of 5001 characters the 5000 characters
    kept are not followed by "... (content truncated)" at once, a newline
    comes first. *)
Lemma full_content_suffix_counterexample :
  ∃ o s p f,
    outcome (scrapeweb (λ _, Page Spec.long_page) (str "example.com"))
    = Ok (Success o s p f)
    ∧ (5000 < length (extract_text Spec.long_page))%nat
    ∧ f ≠ take 5000 (extract_text Spec.long_page) ++ Spec.truncation_suffix.
Proof.
  exists (str "example.com"), (str "https://example.com/"),
    (take 200 Spec.long_page ++ str "..."),
    (take 5000 Spec.long_page ++ truncation_marker).
  split; [vm_compute; reflexivity|]. split.
  - apply Nat.ltb_lt. vm_compute. reflexivity.
  - apply (differ_at _ _ 5000 0xa 46); [vm_compute; reflexivity .. | discriminate].
Qed.

(** C9 (amended). In every Success envelope [full_content] has at most 5024
    characters (5000 of text and the 24 of the marker, newline included) and
    [content_preview] at most 203. *)
Theorem success_lengths (get : pystr → fetched) (url o s p f : pystr) :
  outcome (scrapeweb get url) = Ok (Success o s p f) →
  (length f ≤ 5000 + 24)%nat ∧ (length p ≤ 200 + 3)%nat.
Proof.
  intros H. destruct (scrapeweb_success _ _ _ _ _ _ H) as (raw & _ & _ & -> & ->).
  clear. rewrite shape_content_eq. destruct max_len_bounds as [_ <-].
  generalize (extract_text raw) as text. intros text. cbn zeta. cbn [fst snd].
  assert (length truncation_marker = 24%nat) as M by reflexivity.
  assert (length (str "...") = 3%nat) as D by reflexivity.
  split.
  - destruct (Nat.ltb_spec max_len (length text)) as [L|L].
    + rewrite length_app, length_take, M. lia.
    + lia.
  - rewrite length_app, length_take.
    destruct (200 <? _)%nat; [rewrite D|cbn [length]]; lia.
Qed.

Lemma success_lengths_witness :
  (length (take 5000 Spec.long_page ++ truncation_marker) ≤ 5000 + 24)%nat
  ∧ (length (take 200 Spec.long_page ++ str "...") ≤ 200 + 3)%nat.
Proof.
  apply (success_lengths (λ _, Page Spec.long_page) (str "example.com")
           (str "example.com") (str "https://example.com/")
           (take 200 Spec.long_page ++ str "...")
           (take 5000 Spec.long_page ++ truncation_marker)).
  vm_compute. reflexivity.
Defined.

(** C9 as stated fails: the same page gives a [full_content] of 5024
    characters, above the bound of 5023. *)
Lemma full_content_bound_counterexample :
  ∃ o s p f,
    outcome (scrapeweb (λ _, Page Spec.long_page) (str "example.com"))
    = Ok (Success o s p f)
    ∧ (Spec.full_content_bound < length f)%nat.
Proof.
  exists (str "example.com"), (str "https://example.com/"),
    (take 200 Spec.long_page ++ str "..."),
    (take 5000 Spec.long_page ++ truncation_marker).
  split; [vm_compute; reflexivity|].
  apply Nat.ltb_lt. vm_compute. reflexivity.
Qed.


(** * Normalising a URL twice *)

Import Analysis.

Section Chars.

Implicit Types (c x : char) (s a b : pystr).

Lemma contains_app c a b : contains c (a ++ b) = contains c a || contains c b.
Proof. apply existsb_app. Qed.

Lemma contains_cons c x s : contains c (x :: s) = N.eqb c x || contains c s.
Proof. reflexivity. Qed.

Lemma contains_elem c s : contains c s = true ↔ c ∈ s.
Proof.
  unfold contains. rewrite existsb_exists. split.
  - intros (x & Hx%list_elem_of_In & ->%N.eqb_eq). exact Hx.
  - intros H. exists c. split; [by apply list_elem_of_In | apply N.eqb_refl].
Qed.

Lemma contains_false c s : contains c s = false ↔ c ∉ s.
Proof. rewrite <- contains_elem. by destruct (contains c s). Qed.

Lemma contains_take c s i : contains c s = false → contains c (take i s) = false.
Proof.
  rewrite !contains_false. intros H Hin. apply H.
  rewrite <- (take_drop i s). apply elem_of_app. by left.
Qed.

Lemma index_of_None c s : index_of c s = None ↔ contains c s = false.
Proof.
  induction s as [|x r IH]; simpl; [done|].
  rewrite (N.eqb_sym c x). destruct (N.eqb x c); simpl; [done|].
  rewrite <- IH. by destruct (index_of c r).
Qed.

Lemma index_of_Some c s i :
  index_of c s = Some i →
  s = take i s ++ c :: drop (S i) s ∧ contains c (take i s) = false.
Proof.
  revert i. induction s as [|x r IH]; intros i; simpl; [done|].
  destruct (N.eqb_spec x c) as [->|Hne].
  - by intros [= <-].
  - destruct (index_of c r) as [j|]; [|done]. intros [= <-].
    destruct (IH j eq_refl) as [E1 E2]. simpl. split; [by rewrite <- E1|].
    rewrite E2, orb_false_r. by apply N.eqb_neq.
Qed.

Lemma index_of_app c a b :
  contains c a = false → index_of c (a ++ c :: b) = Some (length a).
Proof.
  induction a as [|x r IH]; simpl.
  - by rewrite N.eqb_refl.
  - rewrite (N.eqb_sym c x). destruct (N.eqb x c); simpl; [done|].
    intros H. by rewrite (IH H).
Qed.

(** The cut at the first [c]. *)
Lemma cut_index c s :
  cut c s = match index_of c s with
            | Some i => (take i s, drop (S i) s)
            | None => (s, [])
            end.
Proof.
  unfold cut, split1. destruct (index_of c s) as [i|] eqn:E.
  - destruct (contains c s) eqn:C; [done|].
    apply index_of_None in C. congruence.
  - apply index_of_None in E. by rewrite E.
Qed.

Lemma cut_app c a b : contains c a = false → cut c (a ++ c :: b) = (a, b).
Proof.
  intros H. rewrite cut_index, (index_of_app _ _ _ H).
  rewrite take_app_length. f_equal.
  change (S (length a)) with (1 + length a)%nat.
  by rewrite Nat.add_comm, <- drop_drop, drop_app_length.
Qed.

Lemma cut_none c a : contains c a = false → cut c a = (a, []).
Proof. intros H. rewrite cut_index. by apply index_of_None in H as ->. Qed.

Lemma cut_inv c s a b :
  cut c s = (a, b) →
  contains c a = false ∧ (s = a ++ c :: b ∨ (s = a ∧ b = [])).
Proof.
  rewrite cut_index. destruct (index_of c s) as [i|] eqn:E.
  - apply index_of_Some in E as [E1 E2]. intros [= <- <-]. split; [done|by left].
  - apply index_of_None in E. intros [= <- <-]. split; [done|by right].
Qed.

(** Prefix and rest of a string, split where [p] first fails. *)
Lemma span_lstrip (p : char → bool) s : span_by p s ++ lstrip_by p s = s.
Proof.
  induction s as [|x r IH]; simpl; [done|].
  destruct (p x); simpl; [by rewrite IH | done].
Qed.

Lemma span_by_all (p : char → bool) s : forallb p (span_by p s) = true.
Proof.
  induction s as [|x r IH]; simpl; [done|].
  destruct (p x) eqn:E; simpl; [by rewrite E, IH | done].
Qed.

Lemma span_by_app (p : char → bool) a b :
  forallb p a = true →
  match b with x :: _ => p x = false | [] => True end →
  span_by p (a ++ b) = a ∧ lstrip_by p (a ++ b) = b.
Proof.
  intros Ha Hb. induction a as [|x r IH]; simpl.
  - destruct b as [|y b]; simpl; [done|]. by rewrite Hb.
  - simpl in Ha. apply andb_true_iff in Ha as [-> Hr].
    destruct (IH Hr) as [-> ->]. done.
Qed.

Lemma length_span_by (p : char → bool) s :
  take (length (span_by p s)) s = span_by p s
  ∧ drop (length (span_by p s)) s = lstrip_by p s.
Proof.
  pose proof (span_lstrip p s) as E. split.
  - rewrite <- E at 2. apply take_app_length.
  - rewrite <- E at 2. apply drop_app_length.
Qed.

(** Removing a character keeps what holds of every character, and cleaning
    does nothing on text that has none of the three characters. *)
Lemma remove_char_forallb (p : char → bool) c s :
  forallb p s = true → forallb p (remove_char c s) = true.
Proof.
  induction s as [|x r IH]; simpl; [done|].
  intros [Hx Hr]%andb_true_iff. destruct (N.eqb x c); simpl; [auto|].
  by rewrite Hx, IH.
Qed.

Lemma remove_char_absent c s :
  forallb (λ x, negb (N.eqb x c)) (remove_char c s) = true.
Proof.
  induction s as [|x r IH]; simpl; [done|].
  destruct (N.eqb x c) eqn:E; simpl; [done|]. by rewrite E.
Qed.

Lemma remove_char_id c s :
  forallb (λ x, negb (N.eqb x c)) s = true → remove_char c s = s.
Proof.
  induction s as [|x r IH]; simpl; [done|].
  intros [Hx Hr]%andb_true_iff. apply negb_true_iff in Hx as ->. by rewrite IH.
Qed.

Lemma forallb_and (p q : char → bool) s :
  forallb (λ x, p x && q x) s = forallb p s && forallb q s.
Proof.
  induction s as [|x r IH]; simpl; [done|]. rewrite IH.
  destruct (p x), (q x); simpl; try done; by rewrite ?andb_false_r.
Qed.

Lemma clean_safe s : forallb safe (clean s) = true.
Proof.
  unfold safe, clean. simpl. rewrite !forallb_and.
  rewrite remove_char_absent.
  rewrite (remove_char_forallb _ _ _ (remove_char_absent _ _)).
  by rewrite (remove_char_forallb _ _ _
                (remove_char_forallb _ _ _ (remove_char_absent _ _))).
Qed.

Lemma clean_id s : forallb safe s = true → clean s = s.
Proof.
  unfold safe, clean. simpl. rewrite !forallb_and.
  intros [[H9 H13]%andb_true_iff H10]%andb_true_iff.
  by rewrite (remove_char_id _ _ H9), (remove_char_id _ _ H13),
    (remove_char_id _ _ H10).
Qed.

End Chars.

(** ** [urlsplit] behind a recognised scheme *)

(** The earliest of the three delimiters is where [not_delim] first fails. *)
Lemma earliest_delimiter (w : pystr) (start : nat) :
  fold_left (λ delim c, match Nat.add start <$> index_of c w with
                        | Some wdelim => Nat.min delim wdelim
                        | None => delim
                        end)
            [chr "/"; chr "?"; chr "#"] (start + length w)%nat
  = (start + length (span_by not_delim w))%nat.
Proof.
  revert start. induction w as [|x r IH]; intros start; [reflexivity|].
  specialize (IH (S start)). cbn [fold_left] in IH |- *.
  cbn [index_of span_by length].
  change (not_delim x) with (negb (N.eqb x 47 || N.eqb x 63 || N.eqb x 35)).
  change (chr "/") with 47 in *. change (chr "?") with 63 in *.
  change (chr "#") with 35 in *.
  destruct (N.eqb_spec x 47) as [->|H1]; [|destruct (N.eqb_spec x 63) as [->|H2];
    [|destruct (N.eqb_spec x 35) as [->|H3]]]; cbn [orb negb length N.eqb Pos.eqb].
  1-3: clear IH; destruct (index_of _ r); destruct (index_of _ r);
    cbn [fmap option_fmap option_map]; lia.
  destruct (index_of 47 r), (index_of 63 r), (index_of 35 r);
    cbn [fmap option_fmap option_map] in IH |- *; lia.
Qed.

Lemma splitnetloc_slashes (w : pystr) :
  _splitnetloc (str "//" ++ w) 2 = (span_by not_delim w, lstrip_by not_delim w).
Proof.
  unfold _splitnetloc, find, slice, from.
  change (drop 2 (str "//" ++ w)) with w.
  change (length (str "//" ++ w)) with (2 + length w)%nat.
  rewrite (earliest_delimiter w 2).
  replace (2 + length (span_by not_delim w) - 2)%nat
    with (length (span_by not_delim w)) by lia.
  change (drop (2 + ?n) (str "//" ++ w)) with (drop n w).
  by destruct (length_span_by not_delim w) as [-> ->].
Qed.

(** Behind one of the four schemes nothing is stripped, the scheme is found
    and kept as it is, and the text goes on with [//]. *)
Lemma urlsplit_scheme (scheme v : pystr) :
  scheme ∈ scheme_names →
  urlsplit (scheme ++ str "://" ++ v)
  = split_after_scheme scheme (str "//" ++ clean v).
Proof.
  unfold scheme_names. cbn [map]. rewrite !elem_of_cons, elem_of_nil.
  intros [->|[->|[->|[->|[]]]]]; reflexivity.
Qed.

Lemma urlparse_absolute (scheme v : pystr) :
  scheme ∈ scheme_names →
  urlparse (scheme ++ str "://" ++ v) = parse_absolute scheme v.
Proof.
  intros Hs. unfold urlparse. rewrite (urlsplit_scheme _ _ Hs).
  unfold split_after_scheme, parse_absolute, netloc_checks, parse_tail, split_params.
  change (eqb (upto 2 (str "//" ++ clean v)) (str "//")) with true.
  cbn match. rewrite splitnetloc_slashes.
  generalize (span_by not_delim (clean v)) as n.
  generalize (lstrip_by not_delim (clean v)) as rest. intros rest n.
  destruct (_ || _); [reflexivity|].
  assert (∀ checked : result unit,
    (r ← ('(netloc, url) ← (_ ← checked; Ok (n, rest));
          let '(url, fragment) := cut (chr "#") url in
          let '(url, query) := cut (chr "?") url in
          _ ← _checknetloc netloc; Ok (mkSplit scheme netloc url query fragment));
     let '(url, params) :=
       if bool_decide (s_scheme r ∈ uses_params) && contains (chr ";") (s_path r)
       then _splitparams (s_path r) else (s_path r, []) in
     Ok (mkParse (s_scheme r) (s_netloc r) url params (s_query r) (s_fragment r)))
    = (_ ← (_ ← checked; _checknetloc n);
       let '(path, params, query, fragment) :=
         (let '(url, fragment) := cut (chr "#") rest in
          let '(url, query) := cut (chr "?") url in
          let '(url, params) :=
            if bool_decide (scheme ∈ uses_params) && contains (chr ";") url
            then _splitparams url else (url, []) in
          (url, params, query, fragment)) in
       Ok (mkParse scheme n path params query fragment))) as H.
  { intros [[]|e]; [|reflexivity]. cbn [mbind result_bind].
    destruct (cut (chr "#") rest) as [u fragment].
    destruct (cut (chr "?") u) as [u' query].
    destruct (_checknetloc n) as [[]|e]; [|reflexivity]. cbn [mbind result_bind].
    cbn [s_scheme s_path s_netloc s_query s_fragment].
    by destruct (_ && _); [destruct (_splitparams u')|]. }
  destruct (_ && _); apply H.
Qed.

(** ** Path and params *)

Lemma contains_rev (c : char) (s : pystr) : contains c (rev s) = contains c s.
Proof.
  destruct (contains c s) eqn:E.
  - apply contains_elem. apply contains_elem in E.
    by apply list_elem_of_In, in_rev; rewrite rev_involutive; apply list_elem_of_In.
  - apply contains_false. apply contains_false in E.
    intros H. apply E. by apply list_elem_of_In, in_rev, list_elem_of_In.
Qed.

Lemma rfind_app (c : char) (a b : pystr) :
  contains c b = false → rfind c (a ++ c :: b) = Some (length a).
Proof.
  intros H. unfold rfind. rewrite rev_app_distr. cbn [rev].
  rewrite <- app_assoc. cbn [app].
  rewrite index_of_app by (by rewrite contains_rev).
  cbn [fmap option_fmap option_map]. f_equal.
  rewrite length_rev, length_app. cbn [length]. lia.
Qed.

Lemma last_occurrence (c : char) (s : pystr) :
  contains c s = true → ∃ a b, s = a ++ c :: b ∧ contains c b = false.
Proof.
  induction s as [|x r IH]; [discriminate|]. rewrite contains_cons.
  destruct (contains c r) eqn:E.
  - intros _. destruct (IH eq_refl) as (a & b & -> & Hb). by exists (x :: a), b.
  - rewrite orb_false_r. intros ->%N.eqb_eq. by exists [], r.
Qed.

Lemma splitparams_slash (a b : pystr) :
  contains (chr "/") b = false →
  _splitparams (a ++ chr "/" :: b)
  = match index_of (chr ";") b with
    | Some k => (a ++ chr "/" :: take k b, drop (S k) b)
    | None => (a ++ chr "/" :: b, [])
    end.
Proof.
  intros Hb. unfold _splitparams, find, upto, from.
  rewrite contains_app, contains_cons, N.eqb_refl, orb_true_r.
  rewrite (rfind_app _ _ _ Hb). cbn [default from_option id].
  rewrite drop_app_length.
  change (index_of (chr ";") (chr "/" :: b)) with (S <$> index_of (chr ";") b).
  destruct (index_of (chr ";") b) as [k|]; cbn [fmap option_fmap option_map]; [|done].
  rewrite <- Nat.add_assoc, take_app_add, drop_app_add. f_equal.
  cbn [Nat.add drop]. by rewrite Nat.add_1_r.
Qed.

Lemma splitparams_plain (s : pystr) (k : nat) :
  contains (chr "/") s = false → index_of (chr ";") s = Some k →
  _splitparams s = (take k s, drop (S k) s).
Proof.
  intros Hs Hk. unfold _splitparams, find, upto, from. rewrite Hs.
  rewrite drop_0, Hk. cbn [fmap option_fmap option_map Nat.add].
  by rewrite Nat.add_1_r.
Qed.

(** Either nothing is split off, or the path found is followed by [;] and
    the params, and is itself left whole by a second split. *)
Lemma split_params_cases (scheme url p pa : pystr) :
  split_params scheme url = (p, pa) →
  (p = url ∧ pa = []) ∨ (url = p ++ chr ";" :: pa ∧ split_params scheme p = (p, [])).
Proof.
  unfold split_params.
  destruct (bool_decide (scheme ∈ uses_params)); cbn [andb];
    [|intros [= <- <-]; by left].
  destruct (contains (chr ";") url) eqn:Hsemi; [|intros [= <- <-]; by left].
  destruct (contains (chr "/") url) eqn:Hslash.
  - destruct (last_occurrence _ _ Hslash) as (a & b & -> & Hb).
    rewrite (splitparams_slash _ _ Hb).
    destruct (index_of (chr ";") b) as [k|] eqn:Hk; intros [= <- <-]; [|by left].
    right. apply index_of_Some in Hk as [Eb Hk]. split.
    + rewrite <- app_assoc. cbn [app]. by rewrite <- Eb.
    + destruct (contains _ (a ++ _ :: take k b)); [|done].
      rewrite (splitparams_slash _ _ (contains_take _ _ _ Hb)).
      by apply index_of_None in Hk as ->.
  - destruct (index_of (chr ";") url) as [k|] eqn:Hk.
    + rewrite (splitparams_plain _ _ Hslash Hk). intros [= <- <-]. right.
      apply index_of_Some in Hk as [Eb Hk]. split; [done|]. by rewrite Hk.
    + apply index_of_None in Hk. congruence.
Qed.

Lemma split_join_params (scheme url p pa : pystr) :
  split_params scheme url = (p, pa) →
  split_params scheme (join_params p pa) = (p, pa).
Proof.
  intros H. unfold join_params.
  destruct (split_params_cases _ _ _ _ H) as [[-> ->]|[-> Hp]]; [done|].
  destruct pa as [|x pa]; [done|]. exact H.
Qed.

(** The joined text is the text that was split, up to one final [;]. *)
Lemma join_params_prefix (scheme url p pa : pystr) :
  split_params scheme url = (p, pa) → ∃ k, url = join_params p pa ++ k.
Proof.
  intros H. unfold join_params.
  destruct (split_params_cases _ _ _ _ H) as [[-> ->]|[-> _]].
  - exists []. by rewrite app_nil_r.
  - destruct pa as [|x pa]; [by exists (str ";")|].
    exists []. by rewrite app_nil_r.
Qed.

(** ** The text after the network location *)

Lemma cut_prefix (c : char) (s a b : pystr) :
  cut c s = (a, b) → ∃ k, s = a ++ k.
Proof.
  intros [_ [->| [-> _]]]%cut_inv; [by eexists|].
  exists []. by rewrite app_nil_r.
Qed.

Lemma cut_forallb (q : char → bool) (c : char) (s a b : pystr) :
  cut c s = (a, b) → forallb q s = true →
  forallb q a = true ∧ forallb q b = true.
Proof.
  intros [_ [->| [-> ->]]]%cut_inv; [|done].
  rewrite forallb_app. cbn [forallb].
  by intros [? [_ ?]%andb_true_iff]%andb_true_iff.
Qed.

Lemma contains_forallb (c : char) (s : pystr) :
  contains c s = false ↔ forallb (λ x, negb (N.eqb c x)) s = true.
Proof.
  induction s as [|x r IH]; [done|]. rewrite contains_cons. cbn [forallb].
  destruct (N.eqb c x); cbn [orb negb andb]; [done | exact IH].
Qed.

Lemma parse_tail_inv (scheme rest p pa q f : pystr) :
  parse_tail scheme rest = (p, pa, q, f) →
  ∃ u x, cut (chr "#") rest = (u, f) ∧ cut (chr "?") u = (x, q)
    ∧ split_params scheme x = (p, pa).
Proof.
  unfold parse_tail. destruct (cut _ rest) as [u f'] eqn:Hf.
  destruct (cut _ u) as [x q'] eqn:Hq.
  destruct (split_params scheme x) as [p' pa'] eqn:Hp.
  intros [= <- <- <- <-]. by exists u, x.
Qed.

(** Every character of the four components comes from the text parsed. *)
Lemma parse_tail_forallb (g : char → bool) (scheme rest p pa q f : pystr) :
  parse_tail scheme rest = (p, pa, q, f) → forallb g rest = true →
  forallb g (join_params p pa) = true ∧ forallb g q = true ∧ forallb g f = true.
Proof.
  intros (u & x & Hf & Hq & Hp)%parse_tail_inv Hrest.
  destruct (cut_forallb g _ _ _ _ Hf Hrest) as [Hu Hf'].
  destruct (cut_forallb g _ _ _ _ Hq Hu) as [Hx Hq'].
  destruct (join_params_prefix _ _ _ _ Hp) as [k ->].
  rewrite forallb_app in Hx. by apply andb_true_iff in Hx as [? _].
Qed.

Lemma unparse_tail_forallb (g : char → bool) (p pa q f : pystr) :
  g (chr "?") = true → g (chr "#") = true →
  forallb g (join_params p pa) = true → forallb g q = true → forallb g f = true →
  forallb g (unparse_tail (p, pa, q, f)) = true.
Proof.
  intros G1 G2 Hj Hq Hf. unfold unparse_tail. rewrite !forallb_app, Hj.
  destruct (nonempty q), (nonempty f); cbn [forallb str app andb];
    by rewrite ?G1, ?G2, ?Hq, ?Hf.
Qed.

(** Parsing what was unparsed gives the same four components. *)
Lemma parse_unparse_tail (scheme rest p pa q f : pystr) :
  parse_tail scheme rest = (p, pa, q, f) →
  parse_tail scheme (unparse_tail (p, pa, q, f)) = (p, pa, q, f).
Proof.
  intros H. pose proof H as (u & x & Hf & Hq & Hp)%parse_tail_inv.
  destruct (cut_inv _ _ _ _ Hf) as [Hu _].
  destruct (cut_inv _ _ _ _ Hq) as [Hx _].
  apply contains_forallb in Hu, Hx.
  destruct (cut_forallb _ _ _ _ _ Hq Hu) as [Hx' Hq'].
  destruct (join_params_prefix _ _ _ _ Hp) as [k Ek].
  assert (contains (chr "#") (join_params p pa) = false
          ∧ contains (chr "?") (join_params p pa) = false) as [J1 J2].
  { rewrite Ek, forallb_app in Hx, Hx'.
    apply andb_true_iff in Hx as [Hx _], Hx' as [Hx' _].
    split; by apply contains_forallb. }
  apply contains_forallb in Hq'.
  unfold parse_tail, unparse_tail.
  set (j := join_params p pa) in *.
  assert (cut (chr "#") (j ++ (if nonempty q then str "?" ++ q else [])
                           ++ (if nonempty f then str "#" ++ f else []))
          = (j ++ (if nonempty q then str "?" ++ q else []), f)) as ->.
  { assert (contains (chr "#") (j ++ (if nonempty q then str "?" ++ q else []))
            = false) as Hjq.
    { rewrite contains_app, J1. by destruct q. }
    destruct f as [|y f].
    - cbn [nonempty]. rewrite app_nil_r. by apply cut_none.
    - rewrite app_assoc. by apply cut_app. }
  assert (cut (chr "?") (j ++ (if nonempty q then str "?" ++ q else [])) = (j, q)) as ->.
  { destruct q as [|y q].
    - cbn [nonempty]. rewrite app_nil_r. by apply cut_none.
    - by apply cut_app. }
  unfold j. by rewrite (split_join_params _ _ _ _ Hp).
Qed.

Lemma parse_tail_head (scheme rest p pa q f : pystr) :
  tail_ok rest → parse_tail scheme rest = (p, pa, q, f) →
  starts_with_slash (join_params p pa).
Proof.
  intros Hok H. pose proof H as (u & x & Hf & Hq & Hp)%parse_tail_inv.
  destruct (cut_inv _ _ _ _ Hf) as [Hu _].
  destruct (cut_inv _ _ _ _ Hq) as [Hx _].
  destruct (cut_prefix _ _ _ _ Hf) as [k1 ->].
  destruct (cut_prefix _ _ _ _ Hq) as [k2 ->].
  destruct (join_params_prefix _ _ _ _ Hp) as [k3 ->].
  destruct (join_params p pa) as [|y j]; [done|].
  cbn [app tail_ok starts_with_slash] in Hok, Hu, Hx |- *.
  rewrite contains_cons in Hu, Hx.
  apply orb_false_iff in Hu as [Hu _], Hx as [Hx _].
  unfold is_delim in Hok. rewrite (N.eqb_sym y (chr "?")), Hx in Hok.
  rewrite (N.eqb_sym y (chr "#")), Hu, !orb_false_r in Hok.
  by apply N.eqb_eq.
Qed.

Lemma unparse_tail_ok (p pa q f : pystr) :
  starts_with_slash (join_params p pa) → tail_ok (unparse_tail (p, pa, q, f)).
Proof.
  unfold unparse_tail. destruct (join_params p pa) as [|y j].
  - intros _. by destruct q, f.
  - by intros ->.
Qed.

Lemma tail_ok_lstrip (w : pystr) : tail_ok (lstrip_by not_delim w).
Proof.
  pose proof (lstrip_by_head not_delim w) as H.
  destruct (lstrip_by not_delim w) as [|c r]; [done|].
  by apply negb_false_iff in H.
Qed.

Lemma span_before_tail (n t : pystr) :
  forallb not_delim n = true → tail_ok t →
  span_by not_delim (n ++ t) = n ∧ lstrip_by not_delim (n ++ t) = t.
Proof.
  intros Hn Ht. apply span_by_app; [done|].
  destruct t as [|c r]; [done|]. unfold not_delim. cbn in Ht. by rewrite Ht.
Qed.

(** Characters of the rebuilt text come from the text that was parsed. *)
Lemma rebuilt_forallb (g : char → bool) (scheme w p pa q f : pystr) :
  g (chr "?") = true → g (chr "#") = true → forallb g w = true →
  parse_tail scheme (lstrip_by not_delim w) = (p, pa, q, f) →
  forallb g (span_by not_delim w ++ unparse_tail (p, pa, q, f)) = true.
Proof.
  intros G1 G2 Hw Ht. rewrite <- (span_lstrip not_delim w), forallb_app in Hw.
  apply andb_true_iff in Hw as [Hn Hrest].
  destruct (parse_tail_forallb g _ _ _ _ _ _ Ht Hrest) as (Hj & Hq & Hf).
  by rewrite forallb_app, Hn, unparse_tail_forallb.
Qed.

(** ** [urlunparse] after [urlparse] *)

Lemma nonempty_true (s : pystr) : s ≠ [] → nonempty s = true.
Proof. by destruct s. Qed.

Lemma urlunparse_absolute (scheme n p pa q f : pystr) :
  scheme ≠ [] → n ≠ [] → starts_with_slash (join_params p pa) →
  urlunparse (mkParse scheme n p pa q f)
  = scheme ++ str "://" ++ n ++ unparse_tail (p, pa, q, f).
Proof.
  intros Hs Hn Hj. unfold urlunparse, urlunsplit, unparse_tail.
  cbn [Urllib.scheme netloc path params query fragment
       s_scheme s_netloc s_path s_query s_fragment].
  change (if nonempty pa then p ++ str ";" ++ pa else p) with (join_params p pa).
  rewrite (nonempty_true _ Hs), (nonempty_true _ Hn). cbn [orb].
  assert ((if nonempty (join_params p pa)
              && negb (eqb (upto 1 (join_params p pa)) (str "/"))
           then str "/" ++ join_params p pa else join_params p pa)
          = join_params p pa) as ->.
  { destruct (join_params p pa) as [|y j]; [done|]. cbn in Hj. by rewrite Hj. }
  destruct q as [|y q], f as [|z f];
    change (nonempty []) with false; try change (nonempty (y :: q)) with true;
    try change (nonempty (z :: f)) with true; cbv iota;
    rewrite <- ?app_assoc, ?app_nil_r; reflexivity.
Qed.

Lemma startswith_app (pre u : pystr) :
  startswith pre u = true → u = pre ++ drop (length pre) u.
Proof.
  revert u. induction pre as [|a pre IH]; intros [|b u]; cbn; try done.
  intros [->%N.eqb_eq H]%andb_true_iff. by rewrite <- (IH _ H).
Qed.

Lemma recognized_scheme_prefix (u : pystr) :
  existsb (λ pre, startswith pre u) recognized_schemes = true ↔
  ∃ scheme v, scheme ∈ scheme_names ∧ u = scheme ++ str "://" ++ v.
Proof.
  unfold recognized_schemes, scheme_names. cbn [map existsb]. split.
  - rewrite !orb_true_iff.
    intros [H|[H|[H|[H|H]]]]; [| | | |discriminate H];
      apply startswith_app in H.
    + exists (str "http"), (drop 7 u). split; [set_solver | exact H].
    + exists (str "https"), (drop 8 u). split; [set_solver | exact H].
    + exists (str "ftp"), (drop 6 u). split; [set_solver | exact H].
    + exists (str "ftps"), (drop 7 u). split; [set_solver | exact H].
  - intros (scheme & v & Hs & ->). revert Hs.
    rewrite !elem_of_cons, elem_of_nil.
    intros [->|[->|[->|[->|[]]]]]; reflexivity.
Qed.

Lemma scheme_names_chars (g : char → bool) (scheme : pystr) :
  scheme ∈ scheme_names → forallb g (str "htps:/f?#") = true →
  scheme ≠ [] ∧ forallb g (scheme ++ str "://") = true
  ∧ g (chr "?") = true ∧ g (chr "#") = true.
Proof.
  unfold scheme_names. cbn [map]. rewrite !elem_of_cons, elem_of_nil.
  cbn [str forallb]. rewrite !andb_true_iff.
  intros [->|[->|[->|[->|[]]]]] ?; cbn [str forallb app]; rewrite ?andb_true_iff;
    (split; [done | tauto]).
Qed.

Lemma clean_forallb (g : char → bool) (s : pystr) :
  forallb g s = true → forallb g (clean s) = true.
Proof.
  intros H. unfold clean. cbn [fold_left _UNSAFE_URL_BYTES_TO_REMOVE].
  by do 3 apply remove_char_forallb.
Qed.

(** An absolute URL with a network location is rebuilt by [urlunparse]
    into one that parses to the same six components. *)
Lemma urlparse_urlunparse (u : pystr) (p : ParseResult) :
  existsb (λ pre, startswith pre u) recognized_schemes = true →
  urlparse u = Ok p → netloc p ≠ [] →
  urlparse (urlunparse p) = Ok p
  ∧ existsb (λ pre, startswith pre (urlunparse p)) recognized_schemes = true
  ∧ ∀ g : char → bool,
      forallb g (str "htps:/f?#") = true → forallb g u = true →
      forallb g (urlunparse p) = true.
Proof.
  intros (scheme & v & Hs & ->)%recognized_scheme_prefix Hp Hn.
  rewrite (urlparse_absolute _ _ Hs) in Hp. unfold parse_absolute in Hp.
  cbv zeta in Hp.
  destruct (netloc_checks (span_by not_delim (clean v))) as [[]|e] eqn:Hc;
    [|discriminate Hp].
  cbn [mbind result_bind] in Hp.
  destruct (parse_tail scheme (lstrip_by not_delim (clean v)))
    as [[[pp pa] q] f] eqn:Ht.
  injection Hp as <-. cbn [netloc] in Hn.
  pose proof (parse_tail_head _ _ _ _ _ _ (tail_ok_lstrip _) Ht) as Hj.
  destruct (scheme_names_chars safe _ Hs eq_refl) as (Hne & _).
  rewrite (urlunparse_absolute _ _ _ _ _ _ Hne Hn Hj).
  set (n := span_by not_delim (clean v)) in *.
  set (t := unparse_tail (pp, pa, q, f)).
  split; [|split].
  - rewrite (urlparse_absolute _ _ Hs). unfold parse_absolute. cbv zeta.
    rewrite (clean_id (n ++ t))
      by (apply (rebuilt_forallb safe scheme); [done..|apply clean_safe|exact Ht]).
    destruct (span_before_tail n t (span_by_all _ _) (unparse_tail_ok _ _ _ _ Hj))
      as [-> ->].
    rewrite Hc. cbn [mbind result_bind]. unfold t.
    by rewrite (parse_unparse_tail _ _ _ _ _ _ Ht).
  - apply recognized_scheme_prefix. by exists scheme, (n ++ t).
  - intros g Hg Hu.
    destruct (scheme_names_chars g _ Hs Hg) as (_ & Hsch & G1 & G2).
    rewrite app_assoc, forallb_app in Hu |- *.
    apply andb_true_iff in Hu as [_ Hv]. rewrite Hsch. cbn [andb].
    apply (rebuilt_forallb g scheme); [done..|by apply clean_forallb|exact Ht].
Qed.

Lemma autocomplete_strip (s : pystr) :
  _autocomplete_url s = _autocomplete_url (strip s).
Proof. unfold _autocomplete_url. by rewrite strip_idemp. Qed.

(** The scheme branch of [_autocomplete_url] on a stripped input. *)
Lemma autocomplete_recognized (u : pystr) (p : ParseResult) :
  strip u = u →
  existsb (λ pre, startswith pre u) recognized_schemes = true →
  urlparse u = Ok p → netloc p ≠ [] →
  _autocomplete_url u = Ok (urlunparse p).
Proof.
  intros Hstrip Hex Hp Hn. unfold _autocomplete_url. rewrite Hstrip, Hex, Hp.
  rewrite (nonempty_true _ Hn).
  destruct u as [|c u]; [discriminate Hex | reflexivity].
Qed.

Lemma forallb_rev (g : char → bool) (s : pystr) : forallb g (rev s) = forallb g s.
Proof.
  induction s as [|x r IH]; [done|]. cbn [rev forallb].
  rewrite forallb_app, IH. cbn [forallb]. by rewrite andb_true_r, andb_comm.
Qed.

Lemma strip_no_space (s : pystr) : no_space s = true → strip s = s.
Proof.
  unfold no_space, strip. intros H.
  rewrite (lstrip_by_fixed Unicode.isspace s).
  - unfold rstrip_by. rewrite lstrip_by_fixed; [apply rev_involutive|].
    rewrite <- forallb_rev in H. destruct (rev s) as [|x r]; [done|].
    cbn [forallb] in H. apply andb_true_iff in H as [H _].
    by apply negb_true_iff in H.
  - destruct s as [|x r]; [done|].
    cbn [forallb] in H. apply andb_true_iff in H as [H _].
    by apply negb_true_iff in H.
Qed.

Lemma strip_forallb (g : char → bool) (s : pystr) :
  forallb g s = true → forallb g (strip s) = true.
Proof.
  intros H. unfold strip.
  destruct (lstrip_by_suffix Unicode.isspace s) as [pre E].
  rewrite E, forallb_app in H. apply andb_true_iff in H as [_ H].
  destruct (rstrip_by_prefix Unicode.isspace (lstrip_by Unicode.isspace s))
    as [suf E'].
  rewrite E', forallb_app in H. by apply andb_true_iff in H as [H _].
Qed.

(** C6 (amended). For an input that, once stripped, starts with a
    recognised scheme and parses to a non-empty network location,
    normalising the normalised URL again gives the same URL whenever that URL
    does not end in whitespace; this is the case for every such input that
    holds no whitespace character. *)
Theorem normalization_idempotent (s once : pystr) (p : ParseResult) :
  existsb (λ pre, startswith pre (strip s)) recognized_schemes = true →
  urlparse (strip s) = Ok p → netloc p ≠ [] →
  _autocomplete_url s = Ok once →
  (strip once = once → _autocomplete_url once = Ok once)
  ∧ (no_space s = true → _autocomplete_url once = Ok once).
Proof.
  intros Hex Hp Hn Hs.
  rewrite autocomplete_strip in Hs.
  rewrite (autocomplete_recognized _ _ (strip_idemp s) Hex Hp Hn) in Hs.
  injection Hs as <-.
  destruct (urlparse_urlunparse _ _ Hex Hp Hn) as (Hp' & Hex' & Hg).
  assert (strip (urlunparse p) = urlunparse p →
          _autocomplete_url (urlunparse p) = Ok (urlunparse p)) as Hidem.
  { intros Hstrip. exact (autocomplete_recognized _ _ Hstrip Hex' Hp' Hn). }
  split; [exact Hidem|]. intros Hns. apply Hidem, strip_no_space.
  apply Hg; [reflexivity|]. by apply strip_forallb.
Qed.

Lemma normalization_idempotent_witness :
  _autocomplete_url (str "http://example.com/path?q=1")
  = Ok (str "http://example.com/path?q=1").
Proof.
  refine (proj2 (normalization_idempotent
                   (str "http://example.com/path?q=1")
                   (str "http://example.com/path?q=1")
                   (mkParse (str "http") (str "example.com") (str "/path") []
                            (str "q=1") [])
                   _ _ _ _) _).
  - vm_compute. reflexivity.
  - vm_compute. reflexivity.
  - discriminate.
  - vm_compute. reflexivity.
  - vm_compute. reflexivity.
Defined.

(** C6 as stated fails: "http://example.com/path #" starts with a recognised
    scheme and parses to the network location "example.com"; it is normalised
    to "http://example.com/path " (the empty fragment is dropped, the space
    stays), and that is normalised to "http://example.com/path". *)
Lemma normalization_not_idempotent :
  existsb (λ pre, startswith pre (str "http://example.com/path #"))
    recognized_schemes = true
  ∧ Spec.host (str "http://example.com/path #") = Ok (str "example.com")
  ∧ _autocomplete_url (str "http://example.com/path #")
    = Ok (str "http://example.com/path ")
  ∧ _autocomplete_url (str "http://example.com/path ")
    = Ok (str "http://example.com/path")
  ∧ str "http://example.com/path " ≠ str "http://example.com/path".
Proof. repeat split; try (vm_compute; reflexivity). discriminate. Qed.


(** * Further properties of the scraper *)

(** ** The exceptions of [urlparse] *)

Lemma bracketed_host_only_ValueError h e : _check_bracketed_host h = Raise e → e = ValueError.
Proof.
  unfold _check_bracketed_host, Ipaddress.ip_address.
  repeat case_match; cbn; by intros [= <-].
Qed.

Lemma bracketed_netloc_only_ValueError n e : _check_bracketed_netloc n = Raise e → e = ValueError.
Proof.
  unfold _check_bracketed_netloc.
  repeat case_match; cbn; try (by intros [= <-]); apply bracketed_host_only_ValueError.
Qed.

Lemma split_after_scheme_only_ValueError sch url e :
  split_after_scheme sch url = Raise e → e = ValueError.
Proof.
  unfold split_after_scheme.
  destruct (eqb (upto 2 url) (str "//")).
  - destruct (_splitnetloc url 2) as [n rest].
    destruct (_ || _); [by intros [= <-]|].
    destruct (_ && _).
    + destruct (_check_bracketed_netloc n) as [[]|e'] eqn:E; cbn [mbind result_bind].
      * destruct (cut _ rest) as [u f]. destruct (cut _ u) as [x q].
        unfold _checknetloc. repeat case_match; by intros [= <-].
      * intros [= <-]. by apply bracketed_netloc_only_ValueError in E.
    + cbn [mbind result_bind]. destruct (cut _ rest) as [u f]. destruct (cut _ u) as [x q].
      unfold _checknetloc. repeat case_match; by intros [= <-].
  - cbn [mbind result_bind]. destruct (cut _ url) as [u f]. destruct (cut _ u) as [x q].
    by cbn.
Qed.

Lemma urlsplit_only_ValueError url e : urlsplit url = Raise e → e = ValueError.
Proof.
  unfold urlsplit.
  match goal with |- context [let '(scheme, url) := ?m in _] => destruct m as [sch url'] end.
  apply split_after_scheme_only_ValueError.
Qed.

Lemma urlparse_only_ValueError url e : urlparse url = Raise e → e = ValueError.
Proof.
  unfold urlparse. destruct (urlsplit url) as [r|e'] eqn:E; cbn [mbind result_bind].
  - by destruct (_ && _); [destruct (_splitparams _)|].
  - intros [= <-]. by apply urlsplit_only_ValueError in E.
Qed.

(** ** [urlparse] behind two slashes *)

Lemma urlsplit_slashes (u : pystr) :
  urlsplit (str "//" ++ u) = split_after_scheme [] (str "//" ++ clean u).
Proof.
  unfold urlsplit.
  change (lstrip_by c0_control_or_space (str "//" ++ u)) with (str "//" ++ u).
  change (fold_left (λ u b, remove_char b u) _UNSAFE_URL_BYTES_TO_REMOVE (str "//" ++ u))
    with (str "//" ++ clean u).
  destruct (find (chr ":") 0 (str "//" ++ clean u)) as [i|]; [|reflexivity].
  by destruct (0 <? i)%nat.
Qed.

(** [urlparse] once [urlsplit] is known to go on behind the scheme. *)
Lemma urlparse_after_scheme (url scheme v : pystr) :
  urlsplit url = split_after_scheme scheme (str "//" ++ clean v) →
  urlparse url = parse_absolute scheme v.
Proof.
  intros E. unfold urlparse. rewrite E.
  unfold split_after_scheme, parse_absolute, netloc_checks, parse_tail, split_params.
  change (eqb (upto 2 (str "//" ++ clean v)) (str "//")) with true.
  cbn match. rewrite splitnetloc_slashes.
  generalize (span_by not_delim (clean v)) as n.
  generalize (lstrip_by not_delim (clean v)) as rest. intros rest n.
  destruct (_ || _); [reflexivity|].
  destruct (_ && _); [destruct (_check_bracketed_netloc n) as [[]|e]|];
    try reflexivity; cbn [mbind result_bind];
    destruct (cut (chr "#") rest) as [u fragment];
    destruct (cut (chr "?") u) as [u' query];
    (destruct (_checknetloc n) as [[]|e]; [|reflexivity]); cbn [mbind result_bind];
    cbn [s_scheme s_path s_netloc s_query s_fragment];
    by destruct (_ && _); [destruct (_splitparams u')|].
Qed.

Lemma urlparse_slashes (u : pystr) : urlparse (str "//" ++ u) = parse_absolute [] u.
Proof. apply urlparse_after_scheme, urlsplit_slashes. Qed.

Lemma parse_absolute_inv (scheme v : pystr) (p : ParseResult) :
  parse_absolute scheme v = Ok p →
  netloc_checks (span_by not_delim (clean v)) = Ok ()
  ∧ Urllib.scheme p = scheme
  ∧ netloc p = span_by not_delim (clean v)
  ∧ parse_tail scheme (lstrip_by not_delim (clean v))
    = (path p, params p, query p, fragment p).
Proof.
  unfold parse_absolute. cbv zeta.
  destruct (netloc_checks _) as [[]|e]; [|discriminate]. cbn [mbind result_bind].
  destruct (parse_tail _ _) as [[[pp pa] q] f]. by intros [= <-].
Qed.

Lemma parse_absolute_ok (scheme v : pystr) :
  netloc_checks (span_by not_delim (clean v)) = Ok () →
  ∃ p, parse_absolute scheme v = Ok p ∧ Urllib.scheme p = scheme
       ∧ netloc p = span_by not_delim (clean v).
Proof.
  intros H. unfold parse_absolute. cbv zeta. rewrite H.
  cbn [mbind result_bind].
  destruct (parse_tail scheme (lstrip_by not_delim (clean v))) as [[[a b] c] d].
  by eexists.
Qed.

Lemma strip_head (s : pystr) :
  match strip s with x :: _ => Unicode.isspace x = false | [] => True end.
Proof.
  pose proof (lstrip_rstrip_fixed Unicode.isspace _
                (lstrip_by_idemp Unicode.isspace s)) as E.
  fold (strip s) in E. rewrite <- E. apply lstrip_by_head.
Qed.

Lemma space_unsafe (c : char) : Unicode.isspace c = false → safe c = true.
Proof.
  unfold safe. intros H.
  destruct (N.eqb_spec c 0x9) as [->|_]; [discriminate H|].
  destruct (N.eqb_spec c 0xd) as [->|_]; [discriminate H|].
  by destruct (N.eqb_spec c 0xa) as [->|_]; [discriminate H|].
Qed.

Lemma clean_cons_safe (c : char) (r : pystr) :
  safe c = true → clean (c :: r) = c :: clean r.
Proof.
  unfold safe, clean. cbn [fold_left _UNSAFE_URL_BYTES_TO_REMOVE remove_char].
  intros [[H1 H2]%andb_true_iff H3]%andb_true_iff.
  apply negb_true_iff in H1, H2, H3. rewrite H1. cbn [remove_char].
  rewrite H2. cbn [remove_char]. by rewrite H3.
Qed.

Lemma clean_app (a b : pystr) : clean (a ++ b) = clean a ++ clean b.
Proof.
  unfold clean. cbn [fold_left _UNSAFE_URL_BYTES_TO_REMOVE].
  induction a as [|x r IH]; [done|]. cbn [app remove_char].
  destruct (N.eqb x 9); [exact IH|]. cbn [remove_char].
  destruct (N.eqb x 13); [exact IH|]. cbn [remove_char].
  destruct (N.eqb x 10); [exact IH|]. cbn [app]. by rewrite IH.
Qed.

Lemma delim_safe (c : char) : is_delim c = true → safe c = true.
Proof.
  unfold is_delim. intros [[H|H]%orb_true_iff|H]%orb_true_iff;
    apply N.eqb_eq in H; by subst c.
Qed.

(** Nothing that starts with [/], [?] or [#] has a network location. *)
Lemma parse_absolute_no_netloc (scheme : pystr) (c : char) (r : pystr) :
  is_delim c = true →
  ∃ p, parse_absolute scheme (c :: r) = Ok p ∧ Urllib.scheme p = scheme
       ∧ netloc p = [].
Proof.
  intros H.
  assert (span_by not_delim (clean (c :: r)) = []) as E.
  { rewrite (clean_cons_safe _ _ (delim_safe _ H)). cbn [span_by].
    unfold not_delim. by rewrite H. }
  destruct (parse_absolute_ok scheme (c :: r)) as (p & Hp & Hs & Hn).
  { by rewrite E. }
  exists p. by rewrite Hn, E.
Qed.

Lemma parse_absolute_tail (scheme v : pystr) :
  tail_ok v →
  ∃ p, parse_absolute scheme v = Ok p ∧ Urllib.scheme p = scheme ∧ netloc p = [].
Proof.
  destruct v as [|c r]; [intros _|apply parse_absolute_no_netloc].
  destruct (parse_absolute_ok scheme []) as (p & Hp & Hs & Hn); [done|].
  by exists p.
Qed.

Lemma starts_with_slash_path (p pa : pystr) :
  starts_with_slash (join_params p pa) → starts_with_slash p.
Proof. unfold join_params. destruct p as [|c p]; [done|]. by destruct (nonempty pa). Qed.

(** The path that [urlparse] finds behind [//] is empty or starts with [/]. *)
Lemma parse_absolute_path (scheme v : pystr) (p : ParseResult) :
  parse_absolute scheme v = Ok p → starts_with_slash (path p).
Proof.
  intros (_ & _ & _ & Ht)%parse_absolute_inv.
  apply (starts_with_slash_path _ (params p)).
  exact (parse_tail_head _ _ _ _ _ _ (tail_ok_lstrip _) Ht).
Qed.

(** The URL that the schemeless branch builds from a host and the parsed
    path, query and fragment: the params are not part of it. *)
Lemma urlunparse_https (host pth q f : pystr) :
  host ≠ [] → starts_with_slash pth →
  urlunparse (mkParse (str "https") host pth [] q f)
  = str "https://" ++ host ++ pth
    ++ (if nonempty q then str "?" ++ q else [])
    ++ (if nonempty f then str "#" ++ f else []).
Proof.
  intros Hh Hp.
  by rewrite (urlunparse_absolute (str "https") host pth [] q f).
Qed.

Lemma https_scheme_name : str "https" ∈ scheme_names.
Proof. unfold scheme_names. cbn [map]. set_solver. Qed.

Lemma nonempty_false (s : pystr) : nonempty s = false → s = [].
Proof. by destruct s. Qed.

Lemma nonempty_strip (s : pystr) : nonempty (strip s) = true → nonempty s = true.
Proof. by destruct s. Qed.

(** ** The schemeless branch of the helper *)

(** A stripped schemeless input that does not start with [?] or [#] and has
    no network location starts with [/]. *)
Lemma path_only_input (s : pystr) (p : ParseResult) :
  startswith (str "?") (strip s) = false → startswith (str "#") (strip s) = false →
  urlparse (str "//" ++ strip s) = Ok p → netloc p = [] → strip s ≠ [] →
  ∃ r, strip s = chr "/" :: r.
Proof.
  intros H1 H2 Hp Hn Hne. rewrite urlparse_slashes in Hp.
  apply parse_absolute_inv in Hp as (_ & _ & Hnet & _). rewrite Hn in Hnet.
  pose proof (strip_head s) as Hh.
  destruct (strip s) as [|c r]; [done|]. exists r. f_equal.
  rewrite (clean_cons_safe _ _ (space_unsafe _ Hh)) in Hnet.
  cbn [span_by] in Hnet. destruct (not_delim c) eqn:D; [discriminate Hnet|].
  apply negb_false_iff in D. unfold is_delim in D.
  cbn [startswith str] in H1, H2. rewrite andb_true_r in H1, H2.
  rewrite (N.eqb_sym c (chr "?")), H1, (N.eqb_sym c (chr "#")), H2, !orb_false_r in D.
  by apply N.eqb_eq.
Qed.

(** X1. Lines 41-66 on an input that has no recognised scheme and does not
    start with [?] or [#]: the scheme is https, the host is the network
    location of ["//" + input], or example.com when there is none, an empty
    path becomes [/], query and fragment are kept and the params are
    dropped. *)
Theorem schemeless_normalization (s : pystr) (p : ParseResult) :
  strip s ≠ [] →
  existsb (λ pre, startswith pre (strip s)) recognized_schemes = false →
  startswith (str "?") (strip s) = false → startswith (str "#") (strip s) = false →
  urlparse (str "//" ++ strip s) = Ok p →
  _autocomplete_url s
  = Ok (str "https://"
        ++ (if nonempty (netloc p) then netloc p else str "example.com")
        ++ (if nonempty (path p) then path p else str "/")
        ++ (if nonempty (query p) then str "?" ++ query p else [])
        ++ (if nonempty (fragment p) then str "#" ++ fragment p else [])).
Proof.
  intros Hne Hex H1 H2 Hp.
  pose proof Hp as Hpath. rewrite urlparse_slashes in Hpath.
  apply parse_absolute_path in Hpath.
  unfold _autocomplete_url. rewrite (nonempty_true _ Hne), Hex, Hp.
  cbn [negb mbind result_bind].
  destruct (nonempty (netloc p)) eqn:N; cbn [negb].
  - destruct (path p) as [|c pth] eqn:Epath.
    + apply (f_equal Ok). cbn -[str urlunparse]. rewrite ?N. cbn -[str urlunparse].
      rewrite urlunparse_https; [done| by destruct (netloc p) | done].
    + cbn in Hpath. subst c.
      apply (f_equal Ok). cbn -[str urlunparse]. rewrite ?N. cbn -[str urlunparse].
      rewrite urlunparse_https; [done| by destruct (netloc p) | done].
  - destruct (path_only_input s p H1 H2 Hp (nonempty_false _ N) Hne) as [r ->].
    destruct (path p) as [|c pth] eqn:Epath.
    + apply (f_equal Ok). cbn -[str urlunparse]. rewrite ?N. cbn -[str urlunparse].
      change (nonempty (str "example.com")) with true. cbn -[str urlunparse].
      rewrite urlunparse_https; [done| done | done].
    + cbn in Hpath. subst c. apply (f_equal Ok).
      cbn -[str urlunparse]. rewrite ?N. cbn -[str urlunparse].
      change (nonempty (str "example.com")) with true. cbn -[str urlunparse].
      rewrite urlunparse_https; [done| done | done].
Qed.

Lemma schemeless_normalization_witness :
  _autocomplete_url (str " example.org/a;b?x=1#top")
  = Ok (str "https://example.org/a?x=1#top").
Proof.
  apply (schemeless_normalization (str " example.org/a;b?x=1#top")
           (mkParse [] (str "example.org") (str "/a") (str "b") (str "x=1") (str "top")));
    [discriminate | vm_compute; reflexivity..].
Defined.

(** Lines 58-64: what the helper makes of a host and a path. *)
Lemma finish_https (host pth q f : pystr) :
  host ≠ [] →
  ∃ pth', pth' ≠ [] ∧ starts_with_slash pth' ∧
    urlunparse
      (mkParse (str "https") host
         (let path := if nonempty host && nonempty pth && negb (startswith (str "/") pth)
                      then str "/" ++ pth else pth in
          if nonempty host && negb (nonempty path) then str "/" else path)
         [] q f)
    = str "https://" ++ host ++ pth'
      ++ (if nonempty q then str "?" ++ q else [])
      ++ (if nonempty f then str "#" ++ f else []).
Proof.
  intros Hh. rewrite (nonempty_true _ Hh). cbn [andb].
  destruct pth as [|c r].
  - exists (str "/"). split; [done|]. split; [done|].
    cbn -[str urlunparse]. by rewrite urlunparse_https.
  - change (nonempty (c :: r)) with true. cbn [andb].
    destruct (startswith (str "/") (c :: r)) eqn:S; cbn [negb].
    + cbn [startswith str] in S. apply andb_true_iff in S as [S _].
      apply N.eqb_eq in S. subst c.
      exists (chr "/" :: r). split; [done|]. split; [done|].
      change (nonempty (chr "/" :: r)) with true. cbn [negb].
      by rewrite urlunparse_https.
    + exists (str "/" ++ c :: r). split; [done|]. split; [done|].
      change (nonempty (str "/" ++ c :: r)) with true. cbn [negb].
      by rewrite urlunparse_https.
Qed.

Lemma split_head_nonempty (c x : char) (r : pystr) :
  N.eqb x c = false → ∃ w, List.hd [] (split c (x :: r)) = x :: w.
Proof.
  intros H. cbn [split]. rewrite H.
  destruct (split c r) as [|w ws]; eauto.
Qed.

(** The shape of every result of the schemeless branch (lines 41-66). *)
Lemma schemeless_shape (s : pystr) (p : ParseResult) :
  strip s ≠ [] →
  existsb (λ pre, startswith pre (strip s)) recognized_schemes = false →
  urlparse (str "//" ++ strip s) = Ok p →
  ∃ host pth, host ≠ [] ∧ pth ≠ [] ∧ starts_with_slash pth ∧
    (netloc p ≠ [] → host = netloc p) ∧
    (netloc p = [] → ∃ c, head (strip s) = Some c ∧ (c = chr "/" ∨ head host = Some c)) ∧
    _autocomplete_url s
    = Ok (str "https://" ++ host ++ pth
          ++ (if nonempty (query p) then str "?" ++ query p else [])
          ++ (if nonempty (fragment p) then str "#" ++ fragment p else [])).
Proof.
  intros Hne Hex Hp.
  unfold _autocomplete_url. rewrite (nonempty_true _ Hne), Hex, Hp.
  cbn [negb mbind result_bind].
  match goal with
  | |- context [let '(_, _) := ?X in _] => destruct X as [host pth] eqn:E
  end.
  assert (host ≠ [] ∧ (netloc p ≠ [] → host = netloc p)
          ∧ (netloc p = [] →
             ∃ c, head (strip s) = Some c ∧ (c = chr "/" ∨ head host = Some c)))
    as (Hh & Hn & Hc).
  { destruct (nonempty (netloc p)) eqn:N; cbn [negb] in E.
    - injection E as <- <-. split; [by destruct (netloc p)|]. split; [done|].
      intros Z. by rewrite Z in N.
    - apply nonempty_false in N.
      destruct (strip s) as [|c r] eqn:Es; [done|].
      destruct (N.eqb c (chr "/")) eqn:C.
      + apply N.eqb_eq in C. subst c. cbn [split] in E.
        change (N.eqb (chr "/") (chr "/")) with true in E. cbv iota in E.
        cbn [List.hd] in E. change (nonempty []) with false in E.
        cbn [andb] in E. injection E as <- <-.
        split; [done|]. split; [done|]. intros _. exists (chr "/"). by split; [|left].
      + destruct (split_head_nonempty (chr "/") c r C) as [w Hw].
        rewrite Hw in E. change (nonempty (c :: w)) with true in E.
        cbn [andb] in E.
        destruct (contains (chr ".") (c :: w)); injection E as <- <-.
        * split; [done|]. split; [done|]. intros _. exists c. by split; [|right].
        * split; [done|]. split; [done|]. intros _. exists c. by split; [|right]. }
  destruct (finish_https host pth (query p) (fragment p) Hh) as (pth' & P1 & P2 & P3).
  exists host, pth'. repeat split; try done.
  cbv zeta in P3. cbv zeta. by rewrite P3.
Qed.

(** ** What [scrapeweb] raises *)

Lemma autocomplete_raises (s : pystr) (e : exn) :
  _autocomplete_url s = Raise e ↔
  e = ValueError ∧ strip s ≠ []
  ∧ existsb (λ pre, startswith pre (strip s)) recognized_schemes = false
  ∧ urlparse (str "//" ++ strip s) = Raise ValueError.
Proof.
  split.
  - intros H.
    destruct (decide (strip s = [])) as [Z|Hne].
    { unfold _autocomplete_url in H. by rewrite Z in H. }
    destruct (existsb (λ pre, startswith pre (strip s)) recognized_schemes) eqn:Hex.
    + unfold _autocomplete_url in H. rewrite (nonempty_true _ Hne), Hex in H.
      cbn [negb] in H.
      destruct (urlparse (strip s)) as [p|e0] eqn:Hp.
      * by repeat case_match.
      * apply urlparse_only_ValueError in Hp. by subst e0.
    + destruct (urlparse (str "//" ++ strip s)) as [p|e0] eqn:Hp.
      * destruct (schemeless_shape s p Hne Hex Hp) as (host & pth & _ & _ & _ & _ & _ & E).
        by rewrite E in H.
      * unfold _autocomplete_url in H. rewrite (nonempty_true _ Hne), Hex, Hp in H.
        cbn [negb mbind result_bind] in H. injection H as ->.
        by rewrite (urlparse_only_ValueError _ _ Hp).
  - intros (-> & Hne & Hex & Hp).
    unfold _autocomplete_url. by rewrite (nonempty_true _ Hne), Hex, Hp.
Qed.

(** X2. [scrapeweb] raises exactly when the input is not blank, does not
    start with a recognised scheme, and [urlparse] rejects ["//" + input]
    (line 42, outside the [try]); the exception is ValueError and no request
    has been made. *)
Theorem scrapeweb_raises (get : pystr → fetched) (url : pystr) (e : exn) :
  (outcome (scrapeweb get url) = Raise e ↔
   e = ValueError ∧ strip url ≠ []
   ∧ existsb (λ pre, startswith pre (strip url)) recognized_schemes = false
   ∧ urlparse (str "//" ++ strip url) = Raise ValueError)
  ∧ (outcome (scrapeweb get url) = Raise e → requested (scrapeweb get url) = []).
Proof.
  rewrite <- autocomplete_raises. unfold scrapeweb.
  destruct (nonempty (strip url)) eqn:Hs.
  - rewrite (nonempty_strip _ Hs). cbn [negb orb].
    destruct (_autocomplete_url url) as [c|e0] eqn:Ha.
    + destruct (urlparse c) as [p|e1] eqn:Hp.
      * by case_match.
      * apply urlparse_only_ValueError in Hp. by subst e1.
    + cbn [outcome requested]. split; [|done]. split; congruence.
  - rewrite orb_true_r. cbn [outcome requested]. split; [|done].
    split; [done|]. intros H. apply autocomplete_raises in H as (_ & Hne & _).
    apply nonempty_false in Hs. done.
Qed.

Lemma scrapeweb_raises_witness :
  outcome (scrapeweb (λ _, Page []) (str "[")) = Raise ValueError
  ∧ requested (scrapeweb (λ _, Page []) (str "[")) = [].
Proof.
  destruct (scrapeweb_raises (λ _, Page []) (str "[") ValueError) as [H1 H2].
  assert (outcome (scrapeweb (λ _, Page []) (str "[")) = Raise ValueError) as H.
  { apply H1. repeat split; [discriminate | vm_compute; reflexivity..]. }
  split; [exact H | exact (H2 H)].
Defined.

(** ** The URL that is requested *)

Lemma https_prefix_recognized (x : pystr) :
  existsb (λ pre, startswith pre (str "https://" ++ x)) recognized_schemes = true.
Proof. reflexivity. Qed.

Lemma autocomplete_scheme (s c : pystr) :
  strip s ≠ [] → _autocomplete_url s = Ok c →
  existsb (λ pre, startswith pre c) recognized_schemes = true
  ∧ (existsb (λ pre, startswith pre (strip s)) recognized_schemes = false →
     startswith (str "https://") c = true).
Proof.
  intros Hne H.
  destruct (existsb (λ pre, startswith pre (strip s)) recognized_schemes) eqn:Hex.
  - split; [|done].
    unfold _autocomplete_url in H. rewrite (nonempty_true _ Hne), Hex in H.
    cbn [negb] in H.
    destruct (urlparse (strip s)) as [p|e0] eqn:Hp.
    + destruct (nonempty (netloc p)) eqn:N.
      * injection H as <-.
        apply (urlparse_urlunparse (strip s) p Hex Hp). by destruct (netloc p).
      * repeat case_match; injection H as <-; apply https_prefix_recognized.
    + apply urlparse_only_ValueError in Hp. subst e0. injection H as <-.
      apply https_prefix_recognized.
  - destruct (urlparse (str "//" ++ strip s)) as [p|e0] eqn:Hp.
    + destruct (schemeless_shape s p Hne Hex Hp) as (host & pth & _ & _ & _ & _ & _ & E).
      rewrite E in H. injection H as <-. split; [|intros _]; reflexivity.
    + unfold _autocomplete_url in H. rewrite (nonempty_true _ Hne), Hex, Hp in H.
      done.
Qed.

(** X3. Every URL the helper builds from a non-blank input starts with one
    of the four recognised schemes, and with [https://] unless the input
    itself starts with one. *)
Theorem normalized_scheme (s c : pystr) :
  strip s ≠ [] → _autocomplete_url s = Ok c →
  existsb (λ pre, startswith pre c) recognized_schemes = true
  ∧ (existsb (λ pre, startswith pre (strip s)) recognized_schemes = false →
     startswith (str "https://") c = true).
Proof. exact (autocomplete_scheme s c). Qed.

(** What [scrapeweb] has done when it has made a request. *)
Lemma requested_inv (get : pystr → fetched) (url c : pystr) :
  c ∈ requested (scrapeweb get url) →
  scrapeweb get url = mkRun (Ok (respond url c (get c))) [c]
  ∧ strip url ≠ [] ∧ _autocomplete_url url = Ok c
  ∧ ∃ p, urlparse c = Ok p ∧ scheme p ≠ [] ∧ netloc p ≠ [].
Proof.
  unfold scrapeweb. intros H.
  destruct (nonempty (strip url)) eqn:Hs.
  - rewrite (nonempty_strip _ Hs) in *. cbn [negb orb] in *.
    destruct (_autocomplete_url url) as [c'|e0] eqn:Ha; cbn [requested] in H.
    + destruct (urlparse c') as [p|e1] eqn:Hp.
      * destruct (nonempty (scheme p)) eqn:S1, (nonempty (netloc p)) eqn:S2;
          cbn [negb orb requested outcome] in *; try by apply elem_of_nil in H.
        apply list_elem_of_singleton in H. subst c'.
        split; [done|]. split; [by destruct (strip url)|]. split; [done|].
        exists p. split; [done|]. by destruct (scheme p), (netloc p).
      * destruct e1; by apply elem_of_nil in H.
    + by apply elem_of_nil in H.
  - rewrite orb_true_r in H. by apply elem_of_nil in H.
Qed.

Lemma normalized_scheme_witness :
  existsb (λ pre, startswith pre (str "https://example.org/")) recognized_schemes = true
  ∧ (existsb (λ pre, startswith pre (strip (str "example.org"))) recognized_schemes = false →
     startswith (str "https://") (str "https://example.org/") = true).
Proof.
  apply (normalized_scheme (str "example.org") (str "https://example.org/"));
    [discriminate | vm_compute; reflexivity].
Defined.

(** X4. A request is only ever made once, to the URL the helper built; that
    URL starts with a recognised scheme and [urlparse] finds a scheme and a
    network location in it; whatever the fetch gives is returned as an
    envelope. *)
Theorem requested_url (get : pystr → fetched) (url c : pystr) :
  c ∈ requested (scrapeweb get url) →
  requested (scrapeweb get url) = [c]
  ∧ _autocomplete_url url = Ok c
  ∧ existsb (λ pre, startswith pre c) recognized_schemes = true
  ∧ (∃ p, urlparse c = Ok p ∧ scheme p ≠ [] ∧ netloc p ≠ [])
  ∧ outcome (scrapeweb get url) = Ok (respond url c (get c)).
Proof.
  intros H. destruct (requested_inv get url c H) as (E & Hne & Ha & Hp).
  rewrite E. cbn [requested outcome]. repeat split; try done.
  by apply (autocomplete_scheme url c).
Qed.

Lemma requested_url_witness :
  requested (scrapeweb (λ _, Page []) (str "example.org")) = [str "https://example.org/"]
  ∧ _autocomplete_url (str "example.org") = Ok (str "https://example.org/")
  ∧ existsb (λ pre, startswith pre (str "https://example.org/")) recognized_schemes = true
  ∧ (∃ p, urlparse (str "https://example.org/") = Ok p ∧ scheme p ≠ [] ∧ netloc p ≠ [])
  ∧ outcome (scrapeweb (λ _, Page []) (str "example.org"))
    = Ok (respond (str "example.org") (str "https://example.org/") (Page [])).
Proof.
  apply (requested_url (λ _, Page []) (str "example.org") (str "https://example.org/")).
  vm_compute. constructor.
Defined.



(** ** Inputs without a host *)



Lemma split1_last_scheme (scheme v : pystr) :
  scheme ∈ scheme_names → split1_last (str "//") (scheme ++ str "://" ++ v) = v.
Proof.
  unfold scheme_names. cbn [map]. rewrite !elem_of_cons.
  intros [-> | [-> | [-> | [-> | H]]]]; [| | | | by apply elem_of_nil in H];
    reflexivity.
Qed.

(** X7. A URL with a recognised scheme and nothing where the host should
    be is never requested: the helper puts [https://] in front of what
    follows the scheme, and [.com] behind it when it holds no dot, and the
    validation of lines 74-80 rejects the result. *)
Theorem scheme_without_host (get : pystr → fetched) (url scheme v : pystr) :
  scheme ∈ scheme_names → strip url = scheme ++ str "://" ++ v → tail_ok v →
  scrapeweb get url
  = mkRun (Ok (Error (str "Failed to construct a valid, absolute URL. Scheme or domain is missing.")
                 [("original_url", url);
                  ("attempted_url",
                   str "https://" ++ v
                   ++ (if nonempty v && negb (contains (chr ".") v)
                       then str ".com" else []))])) [].
Proof.
  intros Hs E Hv.
  assert (strip url ≠ []) as Hne by (rewrite E; by destruct scheme).
  assert (existsb (λ pre, startswith pre (strip url)) recognized_schemes = true) as Hex.
  { apply recognized_scheme_prefix. by exists scheme, v. }
  destruct (parse_absolute_tail scheme v Hv) as (p & Hp & _ & Hn).
  rewrite <- (urlparse_absolute _ _ Hs), <- E in Hp.
  set (suffix := if nonempty v && negb (contains (chr ".") v) then str ".com" else []).
  assert (_autocomplete_url url = Ok (str "https://" ++ v ++ suffix)) as Ha.
  { unfold _autocomplete_url. rewrite (nonempty_true _ Hne), Hex, Hp, Hn.
    cbn [negb]. change (nonempty []) with false. cbv iota.
    rewrite E, (split1_last_scheme _ _ Hs). unfold suffix.
    destruct (nonempty v); cbn [negb andb]; [|by rewrite app_nil_r].
    destruct (contains (chr ".") v); cbn [negb]; by rewrite ?app_nil_r. }
  assert (tail_ok (v ++ suffix)) as Hv' by (by destruct v).
  destruct (parse_absolute_tail (str "https") (v ++ suffix) Hv') as (p' & Hp' & _ & Hn').
  rewrite <- (urlparse_absolute _ _ https_scheme_name) in Hp'.
  unfold scrapeweb. rewrite (nonempty_true _ Hne).
  rewrite (nonempty_strip _ (nonempty_true _ Hne)). cbn [negb orb].
  rewrite Ha.
  change (str "https://" ++ ?x) with (str "https" ++ str "://" ++ x).
  rewrite Hp', Hn'. change (nonempty []) with false.
  by rewrite orb_true_r.
Qed.

Lemma scheme_without_host_witness :
  scrapeweb (λ _, Page []) (str "http:///path")
  = mkRun (Ok (Error (str "Failed to construct a valid, absolute URL. Scheme or domain is missing.")
                 [("original_url", str "http:///path");
                  ("attempted_url",
                   str "https://" ++ str "/path"
                   ++ (if nonempty (str "/path") && negb (contains (chr ".") (str "/path"))
                       then str ".com" else []))])) [].
Proof.
  apply (scheme_without_host (λ _, Page []) (str "http:///path") (str "http") (str "/path"));
    [unfold scheme_names; cbn [map]; constructor
    | vm_compute; reflexivity | reflexivity].
Defined.

(** ** A URL that [urlparse] rejects *)

(** In [https://] followed by a URL with a recognised scheme, the network
    location is that scheme and its colon. *)
Lemma scheme_as_netloc (scheme v : pystr) :
  scheme ∈ scheme_names →
  ∃ p, urlparse (str "https://" ++ scheme ++ str "://" ++ v) = Ok p
       ∧ Urllib.scheme p = str "https" ∧ netloc p = scheme ++ str ":".
Proof.
  intros Hs.
  change (str "https://" ++ ?x) with (str "https" ++ str "://" ++ x).
  rewrite (urlparse_absolute _ _ https_scheme_name).
  assert (span_by not_delim (clean (scheme ++ str "://" ++ v)) = scheme ++ str ":"
          ∧ netloc_checks (scheme ++ str ":") = Ok ()) as [E C].
  { change (scheme ++ str "://" ++ v)
      with (scheme ++ str ":" ++ (chr "/" :: chr "/" :: v)).
    rewrite app_assoc, clean_app, (clean_cons_safe (chr "/")) by done.
    unfold scheme_names in Hs. cbn [map] in Hs.
    rewrite !elem_of_cons in Hs.
    destruct Hs as [-> | [-> | [-> | [-> | Hs]]]];
      [| | | | by apply elem_of_nil in Hs];
      (split; [apply span_before_tail; done | vm_compute; reflexivity]). }
  destruct (parse_absolute_ok (str "https") (scheme ++ str "://" ++ v))
    as (p & Hp & H1 & H2); [by rewrite E|].
  exists p. by rewrite H2, E.
Qed.

(** X8. A URL with a recognised scheme that [urlparse] rejects is not
    reported as invalid: line 39 puts [https://] in front of it, the result
    passes the validation of lines 74-85 and is requested. *)
Theorem rejected_url_is_requested (get : pystr → fetched) (url : pystr) :
  existsb (λ pre, startswith pre (strip url)) recognized_schemes = true →
  urlparse (strip url) = Raise ValueError →
  scrapeweb get url
  = mkRun (Ok (respond url (str "https://" ++ strip url)
                 (get (str "https://" ++ strip url))))
          [str "https://" ++ strip url].
Proof.
  intros Hex Hp.
  assert (strip url ≠ []) as Hne by (intros Z; by rewrite Z in Hex).
  destruct (proj1 (recognized_scheme_prefix _) Hex) as (scheme & v & Hs & E).
  destruct (scheme_as_netloc scheme v Hs) as (p & Hp' & H1 & H2).
  rewrite <- E in Hp'.
  unfold scrapeweb. rewrite (nonempty_true _ Hne).
  rewrite (nonempty_strip _ (nonempty_true _ Hne)). cbn [negb orb].
  unfold _autocomplete_url. rewrite (nonempty_true _ Hne), Hex, Hp.
  cbn [negb]. rewrite Hp', H1, H2.
  rewrite (nonempty_true (scheme ++ str ":")) by (by destruct scheme).
  reflexivity.
Qed.

Lemma rejected_url_is_requested_witness :
  scrapeweb (λ _, Failed ConnectionError []) (str "http://[::1")
  = mkRun (Ok (respond (str "http://[::1") (str "https://" ++ strip (str "http://[::1"))
                 (Failed ConnectionError [])))
          [str "https://" ++ strip (str "http://[::1")].
Proof.
  apply (rejected_url_is_requested (λ _, Failed ConnectionError []) (str "http://[::1"));
    vm_compute; reflexivity.
Defined.

(** ** The extracted text (line 100) *)

Import Text.

Lemma blank_run_free_weaken (s : pystr) :
  blank_run_free true s = true → blank_run_free false s = true.
Proof.
  induction s as [|c r IH]; [done|]. cbn [blank_run_free].
  destruct (N.eqb c 0xa); [done|]. by destruct (Unicode.isspace c).
Qed.

Lemma blank_run_free_run (w b : pystr) :
  forallb Unicode.isspace w = true → blank_run_free true (w ++ 0xa :: b) = false.
Proof.
  induction w as [|c w IH]; [done|]. cbn [forallb app blank_run_free].
  intros [Hc Hw]%andb_true_iff. rewrite Hc.
  destruct (N.eqb c 0xa); [done|]. by apply IH.
Qed.

Lemma blank_run_free_block (st : bool) (a w b : pystr) :
  forallb Unicode.isspace w = true →
  blank_run_free st (a ++ [0xa] ++ w ++ [0xa] ++ b) = false.
Proof.
  intros Hw. revert st. induction a as [|c a IH]; intros st.
  - cbn [app blank_run_free]. change (N.eqb 0xa 0xa) with true. cbv iota.
    rewrite (blank_run_free_run w b Hw). apply andb_false_r.
  - cbn [app blank_run_free]. cbn [app] in IH.
    destruct (N.eqb c 0xa); [by rewrite IH, andb_false_r|].
    by destruct (Unicode.isspace c).
Qed.

Lemma blank_run_free_app_l (st : bool) (a b : pystr) :
  blank_run_free st (a ++ b) = true → blank_run_free st a = true.
Proof.
  revert st. induction a as [|c a IH]; intros st; [done|].
  cbn [app blank_run_free].
  destruct (N.eqb c 0xa).
  - intros [H1 H2]%andb_true_iff. rewrite H1. by apply IH.
  - destruct (Unicode.isspace c); apply IH.
Qed.

Lemma blank_run_free_app_r (st : bool) (a b : pystr) :
  blank_run_free st (a ++ b) = true → blank_run_free false b = true.
Proof.
  revert st. induction a as [|c a IH]; intros st.
  - destruct st; [apply blank_run_free_weaken | done].
  - cbn [app blank_run_free].
    destruct (N.eqb c 0xa).
    + intros [_ H2]%andb_true_iff. by apply (IH true).
    + destruct (Unicode.isspace c); apply IH.
Qed.

Lemma blank_run_free_blanks (st : bool) (blanks s : pystr) :
  forallb inline_blank blanks = true →
  blank_run_free st (blanks ++ s) = blank_run_free st s.
Proof.
  induction blanks as [|c r IH]; [done|]. cbn [forallb app blank_run_free].
  unfold inline_blank at 1.
  intros [[H1 H2]%andb_true_iff H3]%andb_true_iff.
  apply negb_true_iff in H2. rewrite H2, H1. by apply IH.
Qed.

Lemma collapse_blank_run_free (text : pystr) :
  blank_run_free false (collapse_blank_lines None text) = true
  ∧ ∀ blanks, forallb inline_blank blanks = true →
      blank_run_free true (collapse_blank_lines (Some blanks) text) = true.
Proof.
  induction text as [|c r [IH1 IH2]].
  - split; [done|]. intros blanks H. cbn [collapse_blank_lines].
    rewrite <- (app_nil_r blanks). by rewrite blank_run_free_blanks.
  - split.
    + cbn [collapse_blank_lines].
      destruct (N.eqb c 0xa) eqn:C; cbn [blank_run_free]; rewrite C.
      * by rewrite IH2.
      * by destruct (Unicode.isspace c).
    + intros blanks H. cbn [collapse_blank_lines].
      destruct (N.eqb c 0xa) eqn:C; [by apply IH2|].
      destruct (Unicode.isspace c) eqn:S.
      * apply IH2. rewrite forallb_app, H. cbn [forallb]. unfold inline_blank.
        by rewrite S, C.
      * rewrite blank_run_free_blanks by done. cbn [blank_run_free].
        by rewrite C, S.
Qed.

Lemma collapse_fixed (s : pystr) :
  (blank_run_free false s = true → collapse_blank_lines None s = s)
  ∧ ∀ blanks, blank_run_free true s = true →
      collapse_blank_lines (Some blanks) s = blanks ++ s.
Proof.
  induction s as [|c r [IH1 IH2]].
  - split; [done|]. intros blanks _. by rewrite app_nil_r.
  - split.
    + cbn [collapse_blank_lines blank_run_free].
      destruct (N.eqb c 0xa).
      * intros H. by rewrite IH2.
      * destruct (Unicode.isspace c); intros H; by rewrite IH1.
    + intros blanks. cbn [collapse_blank_lines blank_run_free].
      destruct (N.eqb c 0xa); [done|].
      destruct (Unicode.isspace c); intros H.
      * by rewrite IH2, <- app_assoc.
      * by rewrite IH1 by done.
Qed.

Lemma strip_infix (s : pystr) : ∃ pre suf, s = pre ++ strip s ++ suf.
Proof.
  destruct (lstrip_by_suffix Unicode.isspace s) as [pre E1].
  destruct (rstrip_by_prefix Unicode.isspace (lstrip_by Unicode.isspace s)) as [suf E2].
  exists pre, suf. unfold strip. by rewrite <- E2.
Qed.

Lemma extract_text_blank_run_free (raw : pystr) :
  blank_run_free false (extract_text raw) = true.
Proof.
  unfold extract_text.
  destruct (strip_infix (collapse_blank_lines None raw)) as (pre & suf & E).
  pose proof (proj1 (collapse_blank_run_free raw)) as H. rewrite E in H.
  apply blank_run_free_app_r in H. by apply blank_run_free_app_l in H.
Qed.

(** X9. The text taken from a page holds no blank line: nowhere in it is a
    newline followed by blanks only up to the next newline. *)
Theorem extract_text_no_blank_line (raw a w b : pystr) :
  forallb Unicode.isspace w = true →
  extract_text raw ≠ a ++ [0xa] ++ w ++ [0xa] ++ b.
Proof.
  intros Hw E. pose proof (extract_text_blank_run_free raw) as H.
  rewrite E in H. by rewrite (blank_run_free_block false a w b Hw) in H.
Qed.

Lemma extract_text_no_blank_line_witness :
  forallb Unicode.isspace [0x20; 0x9] = true
  ∧ extract_text (str "a" ++ [0xa; 0x20; 0x9; 0xa] ++ str "b")
    ≠ str "a" ++ [0xa] ++ [0x20; 0x9] ++ [0xa] ++ str "b".
Proof.
  split; [reflexivity|].
  apply (extract_text_no_blank_line (str "a" ++ [0xa; 0x20; 0x9; 0xa] ++ str "b")
           (str "a") [0x20; 0x9] (str "b")).
  reflexivity.
Defined.

(** X10. Cleaning text that has been cleaned changes nothing. *)
Theorem extract_text_idempotent (raw : pystr) :
  extract_text (extract_text raw) = extract_text raw.
Proof.
  pose proof (extract_text_blank_run_free raw) as H.
  unfold extract_text at 1.
  rewrite (proj1 (collapse_fixed _) H). unfold extract_text. apply strip_idemp.
Qed.

(** * Properties of the news tool *)

Import News.

Lemma decimal_value_isdigit (s : pystr) (acc n : N) :
  decimal_value acc s = Some n → forallb Unicode.isdigit_char s = true.
Proof.
  revert acc. induction s as [|c r IH]; intros acc; simpl; [done|].
  destruct (Unicode.to_decimal c) as [d|] eqn:D; [|discriminate].
  intros H. rewrite (IH _ H). unfold Unicode.isdigit_char. by rewrite D.
Qed.

Lemma isdigit_nonempty (s : pystr) : isdigit s = true → s ≠ [].
Proof. by destruct s. Qed.

(** What the validator accepts, in terms of the character database. *)
Lemma validate_page_size_true (val : pystr) :
  validate_page_size val = Ok true ↔
  val ≠ [] ∧ (length val ≤ 4300)%nat
  ∧ ∃ n, decimal_value 0 val = Some n ∧ 1 ≤ n ∧ n ≤ 100.
Proof.
  unfold validate_page_size, int_of_digits, int_max_str_digits. split.
  - destruct (isdigit val) eqn:D; [|discriminate].
    apply isdigit_nonempty in D.
    destruct (decimal_value 0 val) as [n|]; [|discriminate].
    rewrite bool_decide_eq_false_2 by done.
    destruct (Nat.ltb_spec 4300 (length val)) as [L|L]; [discriminate|].
    cbn. intros [= E]. apply andb_true_iff in E as [E1 E2].
    apply bool_decide_eq_true in E1, E2.
    split; [done|]. split; [done|]. exists n. split; [done|]. lia.
  - intros (Hne & L & n & Hn & H1 & H2).
    assert (isdigit val = true) as ->.
    { unfold isdigit. rewrite (decimal_value_isdigit _ _ _ Hn).
      by rewrite bool_decide_eq_false_2. }
    rewrite Hn, bool_decide_eq_false_2 by done.
    apply Nat.ltb_ge in L. rewrite L. cbn.
    by rewrite !bool_decide_eq_true_2 by lia.
Qed.

Lemma validate_page_size_int (val : pystr) :
  validate_page_size val = Ok true →
  ∃ n, decimal_value 0 val = Some n ∧ int_of_digits val = Ok (Z.of_N n).
Proof.
  intros H. pose proof H as (Hne & L & n & Hn & _)%validate_page_size_true.
  exists n. split; [done|]. unfold int_of_digits, int_max_str_digits.
  rewrite Hn, bool_decide_eq_false_2 by done.
  apply Nat.ltb_ge in L. by rewrite L.
Qed.

(** The validated prompt returns the first accepted submission, after
    submissions that were all rejected. *)
Lemma text_validated_returned (v : pystr → result bool)
    (typed : list pystr) (answer : pystr) (rest : list pystr) :
  text_validated v typed = Returned (answer, rest) ↔
  ∃ rejected, typed = rejected ++ answer :: rest
    ∧ Forall (λ a, v a = Ok false) rejected ∧ v answer = Ok true.
Proof.
  split.
  - revert answer rest. induction typed as [|a more IH]; intros answer rest; simpl.
    { discriminate. }
    destruct (v a) as [[]|e] eqn:E; [| |discriminate].
    + intros [= <- <-]. by exists [].
    + intros (rejected & -> & F & Hv)%IH.
      exists (a :: rejected). by repeat constructor.
  - intros (rejected & -> & F & Hv).
    induction F as [|a rejected Ha F IH]; simpl.
    + by rewrite Hv.
    + by rewrite Ha.
Qed.

Lemma collect_params_returned (chosen : endpoint) (typed rest : list pystr)
    (params : gmap string param) :
  collect_params chosen typed = Returned (params, rest) ↔
  ∃ api_key a b more page_size n,
    typed = api_key :: a :: b :: more
    ∧ text_validated validate_page_size more = Returned (page_size, rest)
    ∧ int_of_digits page_size = Ok n
    ∧ params = <["pageSize" := PInt n]> (first_params chosen api_key a b).
Proof.
  unfold collect_params, first_params, mbind, prompt_bind, mret, prompt_ret, text, lift.
  split.
  - destruct typed as [|api_key [|a [|b more]]].
    1-3: by destruct chosen.
    intros H. exists api_key, a, b, more.
    destruct chosen;
      (destruct (text_validated validate_page_size more) as [[page_size rest']| |];
       [|discriminate..];
       destruct (int_of_digits page_size) as [n|] eqn:I; [|discriminate];
       injection H as <- <-; by exists page_size, n).
  - intros (api_key & a & b & more & page_size & n & -> & T & I & ->).
    destruct chosen; lazy beta iota; rewrite T; lazy beta iota; by rewrite I.
Qed.

(** C4 (amended). The page-size prompt accepts a string exactly when it is
    a non-empty string of at most 4300 decimal digits of the character
    database, ASCII or not, whose base-10 value lies in [1, 100]; a string
    with a character that is not a digit (so also the empty and the signed
    ones) and a string of decimal digits whose value is outside [1, 100] are
    rejected, and a rejected submission leaves the prompt asking again; the
    page size sent is the value of the accepted string itself. *)
Theorem page_size_prompt :
  (∀ val, validate_page_size val = Ok true ↔
     val ≠ [] ∧ (length val ≤ 4300)%nat
     ∧ ∃ n, decimal_value 0 val = Some n ∧ 1 ≤ n ∧ n ≤ 100)
  ∧ (∀ val, isdigit val = false → validate_page_size val = Ok false)
  ∧ (∀ val n, val ≠ [] → (length val ≤ 4300)%nat →
       decimal_value 0 val = Some n → n < 1 ∨ 100 < n →
       validate_page_size val = Ok false)
  ∧ (∀ val more, validate_page_size val = Ok false →
       text_validated validate_page_size (val :: more)
       = text_validated validate_page_size more)
  ∧ (∀ chosen typed params rest,
       collect_params chosen typed = Returned (params, rest) →
       ∃ answer n, answer ∈ typed ∧ validate_page_size answer = Ok true
         ∧ decimal_value 0 answer = Some n
         ∧ params !! "pageSize" = Some (PInt (Z.of_N n))).
Proof.
  split; [exact validate_page_size_true|]. split; [|split; [|split]].
  - intros val H. unfold validate_page_size. by rewrite H.
  - intros val n Hne L Hn Hout. unfold validate_page_size, int_of_digits.
    assert (isdigit val = true) as ->.
    { unfold isdigit. rewrite (decimal_value_isdigit _ _ _ Hn).
      by rewrite bool_decide_eq_false_2. }
    rewrite Hn, bool_decide_eq_false_2 by done.
    apply Nat.ltb_ge in L. unfold int_max_str_digits. rewrite L. cbn.
    f_equal. apply andb_false_iff.
    destruct Hout; [left|right]; apply bool_decide_eq_false; lia.
  - intros val more H. simpl. by rewrite H.
  - intros chosen typed params rest
      (api_key & a & b & more & page_size & n & -> & T & I & ->)%collect_params_returned.
    apply text_validated_returned in T as (rejected & -> & _ & V).
    destruct (validate_page_size_int _ V) as (v & Hv & Hi).
    exists page_size, v. split; [|split; [done|split; [done|]]].
    + rewrite !elem_of_cons, elem_of_app, elem_of_cons. tauto.
    + rewrite lookup_insert_eq. congruence.
Qed.

Lemma page_size_prompt_witness :
  validate_page_size (str "42") = Ok true
  ∧ validate_page_size (str "+5") = Ok false
  ∧ validate_page_size (str "101") = Ok false.
Proof.
  destruct page_size_prompt as (A & B & C & _).
  split; [|split].
  - apply (A (str "42")). split; [discriminate|]. split; [vm_compute; lia|].
    exists 42. split; [vm_compute; reflexivity | lia].
  - apply (B (str "+5")). vm_compute. reflexivity.
  - apply (C (str "101") 101); [discriminate | vm_compute; lia | vm_compute; reflexivity | lia].
Defined.

(** C4 as stated fails: the one-character string U+0663 (ARABIC-INDIC DIGIT
    THREE) holds a non-ASCII digit, which the claim wants rejected, and the
    prompt accepts it, with value 3. *)
Lemma non_ascii_digit_counterexample :
  validate_page_size [0x663] = Ok true
  ∧ int_of_digits [0x663] = Ok 3%Z
  ∧ Spec.page_size_ok [0x663] = false.
Proof. repeat split; vm_compute; reflexivity. Qed.

(** C5 (amended). With the endpoint "everything" the keyword typed is sent
    as [q] whatever it is, the empty string included; [from] is left out of
    the parameters when nothing was typed and is the text typed otherwise;
    one request, with these parameters, is then issued. *)
Theorem everything_params (api : pystr → gmap string param → reply)
    (typed rest : list pystr) (params : gmap string param) :
  collect_params everything typed = Returned (params, rest) →
  ∃ api_key query from_date more,
    typed = api_key :: query :: from_date :: more
    ∧ params !! "q" = Some (PStr query)
    ∧ params !! "from" = (if nonempty from_date then Some (PStr from_date) else None)
    ∧ requests (fetch_and_display_news api everything typed)
      = [(str "https://newsapi.org/v2/everything", params)].
Proof.
  intros H. pose proof H as
    (api_key & a & b & more & page_size & n & -> & T & I & ->)%collect_params_returned.
  exists api_key, a, b, more. split; [done|].
  unfold fetch_and_display_news. rewrite H. clear H.
  split; [|split].
  - unfold first_params. destruct (nonempty b);
      by rewrite ?lookup_insert_ne, lookup_insert_eq by done.
  - unfold first_params. destruct (nonempty b).
    + by rewrite lookup_insert_ne, lookup_insert_eq by done.
    + by rewrite !lookup_insert_ne, lookup_singleton_ne by done.
  - by destruct (handle_reply _ _ _).
Qed.

Lemma everything_params_witness :
  ∃ api_key query from_date more,
    [str "key"; str "bitcoin"; []; str "5"] = api_key :: query :: from_date :: more
    ∧ (<["pageSize" := PInt 5]> (first_params everything (str "key") (str "bitcoin") []))
        !! "q" = Some (PStr query)
    ∧ (<["pageSize" := PInt 5]> (first_params everything (str "key") (str "bitcoin") []))
        !! "from" = (if nonempty from_date then Some (PStr from_date) else None)
    ∧ requests (fetch_and_display_news (λ _ _, RequestFailed [])
                  everything [str "key"; str "bitcoin"; []; str "5"])
      = [(str "https://newsapi.org/v2/everything",
          <["pageSize" := PInt 5]> (first_params everything (str "key") (str "bitcoin") []))].
Proof.
  apply (everything_params (λ _ _, RequestFailed [])
           [str "key"; str "bitcoin"; []; str "5"] []).
  vm_compute. reflexivity.
Defined.

(** C5 as stated fails: an empty keyword is accepted; the request is issued
    with [q] set to the empty string. *)
Lemma empty_keyword_counterexample :
  ∃ params,
    requests (fetch_and_display_news (λ _ _, RequestFailed [])
                everything [str "key"; []; []; str "5"])
    = [(str "https://newsapi.org/v2/everything", params)]
    ∧ params !! "q" = Some (PStr []).
Proof.
  exists (<["pageSize" := PInt 5]> (first_params everything (str "key") [] [])).
  split; vm_compute; reflexivity.
Qed.

Lemma is_ok_true (status : json) : is_ok status = true → status = JStr (str "ok").
Proof.
  destruct status; try discriminate. unfold is_ok, eqb.
  by intros ->%bool_decide_eq_true.
Qed.

(** C7. When the parsed body is an object whose [status] field is not the
    string "ok", the tool returns the Error envelope whose message is
    "API returned status '<status>': <message>", built from the remote status
    and the remote message, after its one request and without printing
    anything. *)
Theorem remote_status_not_ok (api : pystr → gmap string param → reply)
    (chosen : endpoint) (typed rest : list pystr) (params : gmap string param)
    (shown : pystr) (fields : list (pystr * json)) (status : json) :
  collect_params chosen typed = Returned (params, rest) →
  api (str "https://newsapi.org/v2/" ++ endpoint_name chosen) params
    = Body (JObj shown fields) →
  assoc (str "status") fields = Some status →
  status ≠ JStr (str "ok") →
  fetch_and_display_news api chosen typed
  = mkRun (Returned (Error (str "API returned status '" ++ py_str status ++ str "': "
                              ++ py_str (default JNull (assoc (str "message") fields)))))
          []
          [(str "https://newsapi.org/v2/" ++ endpoint_name chosen, params)].
Proof.
  intros Hc Ha Hs Hne. unfold fetch_and_display_news. rewrite Hc, Ha.
  unfold handle_reply, get. rewrite Hs.
  change (default JNull (Some status)) with status.
  destruct (is_ok status) eqn:E; [by apply is_ok_true in E|]. reflexivity.
Qed.

Lemma remote_status_not_ok_witness :
  fetch_and_display_news (λ _ _, Body Spec.invalid_key_body) top_headlines
    [str "key"; str "us"; []; str "5"]
  = mkRun (Returned (Error (str "API returned status 'error': Your API key is invalid.")))
          []
          [(str "https://newsapi.org/v2/top-headlines",
            <["pageSize" := PInt 5]>
              (first_params top_headlines (str "key") (str "us") []))].
Proof.
  apply (remote_status_not_ok (λ _ _, Body Spec.invalid_key_body) top_headlines
           [str "key"; str "us"; []; str "5"] []
           (<["pageSize" := PInt 5]> (first_params top_headlines (str "key") (str "us") []))
           (str "{...}")
           [(str "status", JStr (str "error"));
            (str "code", JStr (str "apiKeyInvalid"));
            (str "message", JStr (str "Your API key is invalid."))]
           (JStr (str "error"))).
  - vm_compute. reflexivity.
  - reflexivity.
  - vm_compute. reflexivity.
  - intros E. vm_compute in E. discriminate E.
Defined.

(** * Further properties of the news tool *)





(** The prompts of lines 24-48 take three answers, whatever they are. *)
Lemma collect_params_eq (chosen : endpoint) (api_key a b : pystr) (more : list pystr) :
  collect_params chosen (api_key :: a :: b :: more)
  = match text_validated validate_page_size more with
    | Returned (page_size, rest) =>
        match int_of_digits page_size with
        | Ok n => Returned (<["pageSize" := PInt n]> (first_params chosen api_key a b), rest)
        | Raise e => Raised e
        end
    | Raised e => Raised e
    | Waiting => Waiting
    end.
Proof.
  unfold collect_params, mbind, prompt_bind, mret, prompt_ret, text, lift, first_params.
  destruct chosen; lazy beta iota;
    destruct (text_validated validate_page_size more) as [[page_size rest]|e|];
    try done; by destruct (int_of_digits page_size).
Qed.


(** What has happened when a request has been sent. *)
Lemma requests_inv (api : pystr → gmap string param → reply) (chosen : endpoint)
    (typed : list pystr) (u : pystr) (ps : gmap string param) :
  (u, ps) ∈ requests (fetch_and_display_news api chosen typed) →
  ∃ api_key a b rejected page_size rest n,
    typed = api_key :: a :: b :: rejected ++ page_size :: rest
    ∧ Forall (λ x, validate_page_size x = Ok false) rejected
    ∧ validate_page_size page_size = Ok true
    ∧ int_of_digits page_size = Ok n
    ∧ ps = <["pageSize" := PInt n]> (first_params chosen api_key a b)
    ∧ u = str "https://newsapi.org/v2/" ++ endpoint_name chosen
    ∧ fetch_and_display_news api chosen typed
      = mkRun (match (handle_reply chosen ps (api u ps)).1 with
               | Ok e => Returned e
               | Raise e => Raised e
               end)
              (handle_reply chosen ps (api u ps)).2 [(u, ps)].
Proof.
  unfold fetch_and_display_news.
  destruct (collect_params chosen typed) as [[params rest]|e|] eqn:E;
    [|by intros ?%elem_of_nil..].
  apply collect_params_returned in E
    as (api_key & a & b & more & page_size & n & -> & T & I & ->).
  apply text_validated_returned in T as (rejected & -> & F & V).
  destruct (handle_reply _ _ _) as [r out] eqn:Hr. cbn [requests].
  intros [-> ->]%list_elem_of_singleton%pair_equal_spec.
  exists api_key, a, b, rejected, page_size, rest, n.
  rewrite Hr. repeat split; done.
Qed.

Lemma first_params_api_key (chosen : endpoint) (api_key a b : pystr) :
  first_params chosen api_key a b !! "apiKey" = Some (PStr api_key).
Proof.
  unfold first_params.
  destruct chosen, (nonempty a), (nonempty b);
    by rewrite ?lookup_insert_ne, lookup_singleton_eq by done.
Qed.

Lemma accepted_page_size (val : pystr) (n : Z) :
  validate_page_size val = Ok true → int_of_digits val = Ok n → (1 ≤ n ≤ 100)%Z.
Proof.
  intros V I. destruct (validate_page_size_int _ V) as (v & Hv & Hi).
  apply validate_page_size_true in V as (_ & _ & v' & Hv' & L1 & L2).
  rewrite Hi in I. injection I as <-. rewrite Hv in Hv'. injection Hv' as <-. lia.
Qed.

(** X11. A request goes to the URL of the chosen endpoint, once, with the
    first answer as [apiKey] and a [pageSize] between 1 and 100. *)
Theorem request_invariant (api : pystr → gmap string param → reply)
    (chosen : endpoint) (typed : list pystr) (u : pystr) (ps : gmap string param) :
  (u, ps) ∈ requests (fetch_and_display_news api chosen typed) →
  requests (fetch_and_display_news api chosen typed) = [(u, ps)]
  ∧ u = str "https://newsapi.org/v2/" ++ endpoint_name chosen
  ∧ (∃ api_key, head typed = Some api_key ∧ ps !! "apiKey" = Some (PStr api_key))
  ∧ (∃ n, ps !! "pageSize" = Some (PInt n) ∧ (1 ≤ n ≤ 100)%Z).
Proof.
  intros (api_key & a & b & rejected & page_size & rest & n
          & -> & F & V & I & -> & -> & E)%requests_inv.
  rewrite E. split; [done|]. split; [done|]. split.
  - exists api_key. split; [done|].
    by rewrite lookup_insert_ne, first_params_api_key.
  - exists n. split; [by rewrite lookup_insert_eq|].
    by apply (accepted_page_size page_size).
Qed.

Lemma request_invariant_witness :
  requests (fetch_and_display_news (λ _ _, RequestFailed []) top_headlines
              [str "key"; str "us"; []; str "0"; str "5"])
  = [(str "https://newsapi.org/v2/top-headlines",
      <["pageSize" := PInt 5]> (first_params top_headlines (str "key") (str "us") []))]
  ∧ str "https://newsapi.org/v2/top-headlines"
    = str "https://newsapi.org/v2/" ++ endpoint_name top_headlines
  ∧ (∃ api_key, head [str "key"; str "us"; []; str "0"; str "5"] = Some api_key
       ∧ (<["pageSize" := PInt 5]> (first_params top_headlines (str "key") (str "us") []))
           !! "apiKey" = Some (PStr api_key))
  ∧ (∃ n, (<["pageSize" := PInt 5]> (first_params top_headlines (str "key") (str "us") []))
            !! "pageSize" = Some (PInt n) ∧ (1 ≤ n ≤ 100)%Z).
Proof.
  apply (request_invariant (λ _ _, RequestFailed []) top_headlines
           [str "key"; str "us"; []; str "0"; str "5"]).
  vm_compute. constructor.
Defined.

(** X12. With the endpoint "top-headlines" the country and the category
    are sent when something was typed for them and left out otherwise; [q]
    and [from] are never sent. *)
Theorem top_headlines_params (api : pystr → gmap string param → reply)
    (typed : list pystr) (u : pystr) (ps : gmap string param) :
  (u, ps) ∈ requests (fetch_and_display_news api top_headlines typed) →
  ∃ api_key country category more,
    typed = api_key :: country :: category :: more
    ∧ ps !! "country" = (if nonempty country then Some (PStr country) else None)
    ∧ ps !! "category" = (if nonempty category then Some (PStr category) else None)
    ∧ ps !! "q" = None ∧ ps !! "from" = None.
Proof.
  intros (api_key & a & b & rejected & page_size & rest & n
          & -> & F & V & I & -> & -> & E)%requests_inv.
  exists api_key, a, b, (rejected ++ page_size :: rest). split; [done|].
  unfold first_params.
  destruct (nonempty a), (nonempty b); repeat split;
    by rewrite ?lookup_insert_eq, ?lookup_insert_ne, ?lookup_insert_eq,
         ?lookup_insert_ne, ?lookup_singleton_ne by done.
Qed.

Lemma top_headlines_params_witness :
  ∃ api_key country category more,
    [str "key"; str "us"; []; str "5"] = api_key :: country :: category :: more
    ∧ (<["pageSize" := PInt 5]> (first_params top_headlines (str "key") (str "us") []))
        !! "country" = (if nonempty country then Some (PStr country) else None)
    ∧ (<["pageSize" := PInt 5]> (first_params top_headlines (str "key") (str "us") []))
        !! "category" = (if nonempty category then Some (PStr category) else None)
    ∧ (<["pageSize" := PInt 5]> (first_params top_headlines (str "key") (str "us") []))
        !! "q" = None
    ∧ (<["pageSize" := PInt 5]> (first_params top_headlines (str "key") (str "us") []))
        !! "from" = None.
Proof.
  apply (top_headlines_params (λ _ _, RequestFailed [])
           [str "key"; str "us"; []; str "5"] (str "https://newsapi.org/v2/top-headlines")).
  vm_compute. constructor.
Defined.

(** X13. The parameters of a request have no other keys than [apiKey],
    [pageSize] and the two of the chosen endpoint. *)
Theorem request_keys (api : pystr → gmap string param → reply)
    (chosen : endpoint) (typed : list pystr) (u : pystr) (ps : gmap string param)
    (key : string) :
  (u, ps) ∈ requests (fetch_and_display_news api chosen typed) →
  is_Some (ps !! key) →
  key ∈ ["apiKey"; "pageSize"]%string
        ++ match chosen with
           | top_headlines => ["country"; "category"]%string
           | everything => ["q"; "from"]%string
           end.
Proof.
  intros (api_key & a & b & rejected & page_size & rest & n
          & -> & F & V & I & -> & -> & E)%requests_inv.
  unfold first_params.
  destruct chosen, (nonempty a), (nonempty b);
    rewrite elem_of_app, !elem_of_cons, ?lookup_insert_is_Some,
      lookup_singleton_is_Some;
    intros H; repeat (destruct H as [<- | [_ H]]; [auto 10|]);
    rewrite <- H; auto 10.
Qed.

Lemma request_keys_witness :
  "from"%string ∈ ["apiKey"; "pageSize"]%string ++ ["q"; "from"]%string.
Proof.
  apply (request_keys (λ _ _, RequestFailed []) everything
           [str "key"; str "bitcoin"; str "2024-01-01"; str "5"]
           (str "https://newsapi.org/v2/everything")
           (<["pageSize" := PInt 5]>
              (first_params everything (str "key") (str "bitcoin") (str "2024-01-01")))
           "from").
  - vm_compute. constructor.
  - vm_compute. by eexists.
Defined.

(** X14. When the request, the status check or the decoding of the body
    fails, the error envelope of lines 63-67 is returned with the text of
    the exception, and nothing is printed. *)
Theorem transport_failure_reported (api : pystr → gmap string param → reply)
    (chosen : endpoint) (typed : list pystr) (u : pystr) (ps : gmap string param)
    (details : pystr) :
  (u, ps) ∈ requests (fetch_and_display_news api chosen typed) →
  api u ps = RequestFailed details →
  fetch_and_display_news api chosen typed
  = mkRun (Returned (Error (str "API request failed: " ++ details))) [] [(u, ps)].
Proof.
  intros (api_key & a & b & rejected & page_size & rest & n
          & -> & F & V & I & -> & -> & E)%requests_inv R.
  rewrite E, R. reflexivity.
Qed.

Lemma transport_failure_reported_witness :
  fetch_and_display_news (λ _ _, RequestFailed (str "401 Client Error")) everything
    [str "key"; str "bitcoin"; []; str "5"]
  = mkRun (Returned (Error (str "API request failed: " ++ str "401 Client Error"))) []
          [(str "https://newsapi.org/v2/everything",
            <["pageSize" := PInt 5]> (first_params everything (str "key") (str "bitcoin") []))].
Proof.
  apply (transport_failure_reported (λ _ _, RequestFailed (str "401 Client Error"))
           everything [str "key"; str "bitcoin"; []; str "5"]);
    [vm_compute; constructor | reflexivity].
Defined.

Lemma text_validated_skip (v : pystr → result bool) (rejected more : list pystr) :
  Forall (λ x, v x = Ok false) rejected →
  text_validated v (rejected ++ more) = text_validated v more.
Proof.
  induction 1 as [|x rejected Hx F IH]; [done|].
  cbn [app text_validated]. by rewrite Hx.
Qed.

(** X15. Answers that the page-size prompt rejects leave no trace: the run
    is the one without them. *)
Theorem rejected_page_sizes_skipped (api : pystr → gmap string param → reply)
    (chosen : endpoint) (api_key a b : pystr) (rejected more : list pystr) :
  Forall (λ x, validate_page_size x = Ok false) rejected →
  fetch_and_display_news api chosen (api_key :: a :: b :: rejected ++ more)
  = fetch_and_display_news api chosen (api_key :: a :: b :: more).
Proof.
  intros F. unfold fetch_and_display_news.
  by rewrite !collect_params_eq, (text_validated_skip _ _ _ F).
Qed.

Lemma rejected_page_sizes_skipped_witness :
  fetch_and_display_news (λ _ _, RequestFailed []) top_headlines
    (str "key" :: str "us" :: [] :: [str "0"; str "abc"; str "101"] ++ [str "7"])
  = fetch_and_display_news (λ _ _, RequestFailed []) top_headlines
      (str "key" :: str "us" :: [] :: [str "7"]).
Proof.
  apply (rejected_page_sizes_skipped (λ _ _, RequestFailed []) top_headlines
           (str "key") (str "us") [] [str "0"; str "abc"; str "101"] [str "7"]).
  repeat constructor.
Defined.























(** X22. A body that is not a JSON object (an array, a string, a number,
    [null]) is not reported as an error: line 70 raises AttributeError. *)
Theorem body_not_an_object (api : pystr → gmap string param → reply)
    (chosen : endpoint) (typed : list pystr) (u : pystr) (ps : gmap string param)
    (data : json) :
  (u, ps) ∈ requests (fetch_and_display_news api chosen typed) →
  api u ps = Body data → (∀ shown fields, data ≠ JObj shown fields) →
  fetch_and_display_news api chosen typed = mkRun (Raised AttributeError) [] [(u, ps)].
Proof.
  intros (api_key & a & b & rejected & page_size & rest & n
          & -> & F & V & I & -> & -> & E)%requests_inv R H.
  rewrite E, R. destruct data; try done. by destruct (H shown fields).
Qed.

Lemma body_not_an_object_witness :
  fetch_and_display_news (λ _ _, Body (JArr (str "[]") [])) top_headlines
    [str "key"; str "us"; []; str "5"]
  = mkRun (Raised AttributeError) []
          [(str "https://newsapi.org/v2/top-headlines",
            <["pageSize" := PInt 5]> (first_params top_headlines (str "key") (str "us") []))].
Proof.
  apply (body_not_an_object (λ _ _, Body (JArr (str "[]") [])) top_headlines
           [str "key"; str "us"; []; str "5"] _ _ (JArr (str "[]") []));
    [vm_compute; constructor | reflexivity | discriminate].
Defined.

(** X23. With status "ok" and [null], a number or a boolean under
    [articles], line 78 raises TypeError. *)
Theorem articles_not_iterable (api : pystr → gmap string param → reply)
    (chosen : endpoint) (typed : list pystr) (u : pystr) (ps : gmap string param)
    (shown : pystr) (fields : list (pystr * json)) (v : json) :
  (u, ps) ∈ requests (fetch_and_display_news api chosen typed) →
  api u ps = Body (JObj shown fields) →
  assoc (str "status") fields = Some (JStr (str "ok")) →
  assoc (str "articles") fields = Some v →
  v = JNull ∨ (∃ b, v = JBool b) ∨ (∃ s, v = JNum s) →
  fetch_and_display_news api chosen typed = mkRun (Raised TypeError) [] [(u, ps)].
Proof.
  intros (api_key & a & b & rejected & page_size & rest & n
          & -> & F & V & I & -> & -> & E)%requests_inv R S A Hv.
  rewrite E, R. unfold handle_reply, get. rewrite S, A.
  change (default JNull (Some ?x)) with x.
  change (is_ok (JStr (str "ok"))) with true. cbn [negb].
  by destruct Hv as [-> | [[b' ->] | [s ->]]].
Qed.

Lemma articles_not_iterable_witness :
  fetch_and_display_news
    (λ _ _, Body (JObj (str "{...}")
                    [(str "status", JStr (str "ok")); (str "articles", JNull)]))
    top_headlines [str "key"; str "us"; []; str "5"]
  = mkRun (Raised TypeError) []
          [(str "https://newsapi.org/v2/top-headlines",
            <["pageSize" := PInt 5]> (first_params top_headlines (str "key") (str "us") []))].
Proof.
  apply (articles_not_iterable _ top_headlines [str "key"; str "us"; []; str "5"] _ _
           (str "{...}")
           [(str "status", JStr (str "ok")); (str "articles", JNull)] JNull);
    [vm_compute; constructor | reflexivity | reflexivity | reflexivity | by left].
Defined.
